(** * serve-sample-data.py: a static-file HTTP server for Druid sample data

    A shallow embedding of [serve-sample-data.py] and of the parts of the
    Python 3.11 standard library its behaviour is inherited from
    ([http.server], [socketserver], [posixpath]), followed by the
    properties proved about them.

    Conventions.
    - A Python [str] is a Rocq [string]; a character is its Latin-1 code
      (the request line is decoded as iso-8859-1), bytes written to a
      socket are a [string] as well.
    - Python integers are [Z].
    - [print] appends one entry to the standard-output list of the state.
    - Exceptions are values of [exn]; [sys.exit] raises [SystemExit]. *)

From Stdlib Require Import ZArith List String Ascii Bool Lia.
From Stdlib Require Import Sorting.Sorted Sorting.Permutation.
From Stdlib Require Import DecimalString.
Import ListNotations.
Local Open Scope string_scope.
Local Open Scope Z_scope.

(** ** Python strings *)

Module PyStr.

Definition chr (n : nat) : string := String (ascii_of_nat n) EmptyString.

Definition CR : string := chr 13.
Definition LF : string := chr 10.
Definition CRLF : string := CR ++ LF.
Definition DQUOTE : string := chr 34.

Definition code (c : ascii) : nat := nat_of_ascii c.

(** [str(n)] for an integer. *)
Definition str_of_Z (z : Z) : string := NilZero.string_of_int (Z.to_int z).

(** [len(s)] as a Python integer. *)
Definition len (s : string) : Z := Z.of_nat (String.length s).

Definition startswith (p s : string) : bool := String.prefix p s.

Fixpoint rev_string (s : string) : string :=
  match s with
  | EmptyString => EmptyString
  | String c r => rev_string r ++ String c EmptyString
  end.

Fixpoint endswith_char (c : ascii) (s : string) : bool :=
  match s with
  | EmptyString => false
  | String d EmptyString => Ascii.eqb c d
  | String _ r => endswith_char c r
  end.

(** [c in s] for a one-character [c]. *)
Fixpoint contains_char (c : ascii) (s : string) : bool :=
  match s with
  | EmptyString => false
  | String d r => Ascii.eqb c d || contains_char c r
  end.

(** [s.split(sep)] for a one-character separator: never the empty list. *)
Fixpoint split_char (sep : ascii) (s : string) : list string :=
  match s with
  | EmptyString => [EmptyString]
  | String c r =>
      if Ascii.eqb c sep then EmptyString :: split_char sep r
      else match split_char sep r with
           | [] => [String c EmptyString]
           | w :: ws => String c w :: ws
           end
  end.

(** [s.split(sep, 1)[0]]: the part of [s] before the first [sep]. *)
Fixpoint before_first (sep : ascii) (s : string) : string :=
  match s with
  | EmptyString => EmptyString
  | String c r => if Ascii.eqb c sep then EmptyString else String c (before_first sep r)
  end.

(** The part after the first [sep], when there is one: [s.split(sep, 1)[1]]. *)
Fixpoint after_first (sep : ascii) (s : string) : option string :=
  match s with
  | EmptyString => None
  | String c r => if Ascii.eqb c sep then Some r else after_first sep r
  end.

(** [sep.join(ws)]. *)
Fixpoint join (sep : string) (ws : list string) : string :=
  match ws with
  | [] => EmptyString
  | [w] => w
  | w :: rest => w ++ sep ++ join sep rest
  end.

(** [s.lstrip(c)] for a one-character [c]. *)
Fixpoint lstrip_char (c : ascii) (s : string) : string :=
  match s with
  | String d r => if Ascii.eqb c d then lstrip_char c r else s
  | EmptyString => EmptyString
  end.

(** Drop the longest suffix whose characters satisfy [p]. *)
Fixpoint rstrip_by (p : ascii -> bool) (s : string) : string :=
  match s with
  | EmptyString => EmptyString
  | String c r =>
      match rstrip_by p r with
      | EmptyString => if p c then EmptyString else String c EmptyString
      | r' => String c r'
      end
  end.

Fixpoint lstrip_by (p : ascii -> bool) (s : string) : string :=
  match s with
  | String c r => if p c then lstrip_by p r else s
  | EmptyString => EmptyString
  end.

(** [str.isspace] on Latin-1 characters: what [str.split()] and
    [str.rstrip()] treat as white space. *)
Definition isspace (c : ascii) : bool :=
  let n := code c in
  ((9 <=? n) && (n <=? 13) || (28 <=? n) && (n <=? 32)
   || (n =? 133) || (n =? 160))%nat.

(** White space skipped by [int()] around an ASCII literal. *)
Definition is_c_space (c : ascii) : bool :=
  let n := code c in ((9 <=? n) && (n <=? 13) || (n =? 32))%nat.

Definition rstrip (s : string) : string := rstrip_by isspace s.

Definition is_crlf (c : ascii) : bool :=
  let n := code c in ((n =? 13) || (n =? 10))%nat.

(** [s.rstrip('\r\n')]. *)
Definition rstrip_crlf (s : string) : string := rstrip_by is_crlf s.

(** [s.split()]: the maximal runs of non-space characters. *)
Fixpoint split_ws_aux (cur : option string) (s : string) : list string :=
  match s with
  | EmptyString => match cur with Some w => [rev_string w] | None => [] end
  | String c r =>
      if isspace c then
        match cur with
        | Some w => rev_string w :: split_ws_aux None r
        | None => split_ws_aux None r
        end
      else
        match cur with
        | Some w => split_ws_aux (Some (String c w)) r
        | None => split_ws_aux (Some (String c EmptyString)) r
        end
  end.

Definition split_ws (s : string) : list string := split_ws_aux None s.

Definition lower_char (c : ascii) : ascii :=
  let n := code c in
  if ((65 <=? n) && (n <=? 90))%nat then ascii_of_nat (n + 32) else c.

(** [s.lower()] on ASCII letters. *)
Fixpoint lower (s : string) : string :=
  match s with
  | EmptyString => EmptyString
  | String c r => String (lower_char c) (lower r)
  end.

Definition is_digit (c : ascii) : bool :=
  let n := code c in ((48 <=? n) && (n <=? 57))%nat.

Definition digit_val (c : ascii) : Z := Z.of_nat (code c) - 48.

(** The digits of a decimal literal: at least one digit, single
    underscores allowed between digits only.  [acc] is the value so far,
    [n] the number of digits read, [prev] whether the previous character
    was a digit. *)
Fixpoint int_digits (s : string) (acc : Z) (n : nat) (prev : bool)
  : option (Z * nat) :=
  match s with
  | EmptyString => if prev then Some (acc, n) else None
  | String c r =>
      if is_digit c then int_digits r (10 * acc + digit_val c) (S n) true
      else if Ascii.eqb c "_" then
        if prev then int_digits r acc n false else None
      else None
  end.

(** [sys.get_int_max_str_digits()], the default limit. *)
Definition MAX_STR_DIGITS : nat := 4300.

(** [int(s)] in base 10 for an ASCII string: [None] stands for
    [ValueError].  Surrounding white space is skipped, one sign is
    allowed, and a literal of more than [MAX_STR_DIGITS] digits is
    refused. *)
Definition py_int (s : string) : option Z :=
  let body := rstrip_by is_c_space (lstrip_by is_c_space s) in
  let '(neg, ds) :=
    match body with
    | String "-" r => (true, r)
    | String "+" r => (false, r)
    | _ => (false, body)
    end in
  match int_digits ds 0 0 false with
  | Some (v, n) =>
      if (MAX_STR_DIGITS <? n)%nat then None
      else Some (if neg then - v else v)
  | None => None
  end.

(** [html.escape(s, quote=False)]. *)
Fixpoint html_escape (s : string) : string :=
  match s with
  | EmptyString => EmptyString
  | String c r =>
      (if Ascii.eqb c "&" then "&amp;"
       else if Ascii.eqb c "<" then "&lt;"
       else if Ascii.eqb c ">" then "&gt;"
       else String c EmptyString) ++ html_escape r
  end.

(** [s.encode('UTF-8')] for a string of Latin-1 characters. *)
Fixpoint utf8_encode (s : string) : string :=
  match s with
  | EmptyString => EmptyString
  | String c r =>
      let n := code c in
      (if (n <? 128)%nat then String c EmptyString
       else String (ascii_of_nat (192 + n / 64))
              (String (ascii_of_nat (128 + n mod 64)) EmptyString))
      ++ utf8_encode r
  end.

End PyStr.

(** ** posixpath *)

Module PosixPath.
Import PyStr.

Definition sep : ascii := "/"%char.

(** [posixpath.join(a, b)]. *)
Definition join (a b : string) : string :=
  if startswith "/" b then b
  else if String.eqb a EmptyString || endswith_char sep a then a ++ b
  else a ++ "/" ++ b.

Definition isabs (p : string) : bool := startswith "/" p.

(** The loop of [normpath] over the components of the path; [new_comps]
    is kept in reverse (its head is the last component appended). *)
Fixpoint norm_comps (initial_slashes : bool) (comps new_comps : list string)
  : list string :=
  match comps with
  | [] => rev new_comps
  | comp :: rest =>
      if String.eqb comp EmptyString || String.eqb comp "." then
        norm_comps initial_slashes rest new_comps
      else if negb (String.eqb comp "..")
              || (negb initial_slashes
                  && match new_comps with [] => true | _ => false end)
              || match new_comps with
                 | last :: _ => String.eqb last ".."
                 | [] => false
                 end
      then norm_comps initial_slashes rest (comp :: new_comps)
      else norm_comps initial_slashes rest (List.tl new_comps)
  end.

(** [posixpath.normpath(path)]. *)
Definition normpath (path : string) : string :=
  if String.eqb path EmptyString then "."
  else
    let initial := startswith "/" path in
    let slashes :=
      if initial && startswith "//" path && negb (startswith "///" path)
      then "//" else if initial then "/" else EmptyString in
    let comps := norm_comps initial (split_char sep path) [] in
    let p := slashes ++ PyStr.join "/" comps in
    if String.eqb p EmptyString then "." else p.

(** [posixpath.abspath(path)], with the current directory explicit. *)
Definition abspath (cwd path : string) : string :=
  normpath (if isabs path then path else join cwd path).

(** [p[:i]] where [i = p.rfind('/') + 1]. *)
Fixpoint head_upto_last_sep (p : string) : string :=
  match p with
  | EmptyString => EmptyString
  | String c r =>
      if contains_char sep r then String c (head_upto_last_sep r)
      else if Ascii.eqb c sep then String c EmptyString
      else EmptyString
  end.

Definition all_sep (s : string) : bool :=
  String.eqb (lstrip_char sep s) EmptyString.

(** [posixpath.dirname(p)]. *)
Definition dirname (p : string) : string :=
  let head := head_upto_last_sep p in
  if negb (String.eqb head EmptyString) && negb (all_sep head)
  then rstrip_by (Ascii.eqb sep) head
  else head.

End PosixPath.

(** ** Exceptions and effects *)

Inductive exn : Type :=
| ValueError
| TypeError
| OSError
| NotADirectoryError
| OverflowError
| AttributeError
| KeyboardInterrupt
| SystemExit (code : Z).

(** The result of running a statement: a value, or a raised exception,
    or no result at all when the statement blocks for ever (the accept
    loop of the server). *)
Inductive res (A : Type) : Type :=
| Ret (a : A)
| Raise (e : exn)
| Blocked.
Arguments Ret {A} a.
Arguments Raise {A} e.
Arguments Blocked {A}.

(** A statement over a state [S]. *)
Definition Eff (S A : Type) : Type := S -> res A * S.

Definition ret {S A} (a : A) : Eff S A := fun s => (Ret a, s).

Definition bind {S A B} (m : Eff S A) (k : A -> Eff S B) : Eff S B :=
  fun s =>
    match m s with
    | (Ret a, s') => k a s'
    | (Raise e, s') => (Raise e, s')
    | (Blocked, s') => (Blocked, s')
    end.

Definition raise {S A} (e : exn) : Eff S A := fun s => (Raise e, s).

(** [try: m  except: h] where [h] re-raises what it does not handle. *)
Definition try_except {S A} (m : Eff S A) (h : exn -> Eff S A) : Eff S A :=
  fun s =>
    match m s with
    | (Raise e, s') => h e s'
    | r => r
    end.

Definition get {S} : Eff S S := fun s => (Ret s, s).
Definition modify {S} (f : S -> S) : Eff S unit := fun s => (Ret tt, f s).

Declare Scope eff_scope.
Delimit Scope eff_scope with eff.
Notation "x <- c1 ;; c2" := (bind c1 (fun x => c2))
  (at level 100, c1 at next level, right associativity) : eff_scope.
Notation "c1 ;; c2" := (bind c1 (fun _ => c2))
  (at level 100, right associativity) : eff_scope.

(** [l.append(x)]. *)
Definition list_append {A} (l : list A) (x : A) : list A := (l ++ [x])%list.

(** [for x in xs: body x]. *)
Fixpoint for_each {S A} (xs : list A) (body : A -> Eff S unit) : Eff S unit :=
  match xs with
  | [] => ret tt
  | x :: rest => bind (body x) (fun _ => for_each rest body)
  end.

(** ** The file system and the operating system calls used *)

Module OS.
Import PyStr.

(** A file with its bytes and modification time, or a directory with
    the names [os.listdir] returns for it and the size [stat] reports.
    Symbolic links are not modelled. *)
Inductive node : Type :=
| File (content : string) (mtime : Z)
| Dir (entries : list string) (st_size : Z).

(** The file system, by absolute normalised path. *)
Definition filesystem : Type := string -> option node.

Definition has_nul (p : string) : bool := contains_char (ascii_of_nat 0) p.

(** What is found at path [p], resolved from directory [cwd]. *)
Definition stat (fs : filesystem) (cwd p : string) : option node :=
  if has_nul p then None else fs (PosixPath.abspath cwd p).

(** [os.path.exists(p)]. *)
Definition path_exists (fs : filesystem) (cwd p : string) : bool :=
  match stat fs cwd p with Some _ => true | None => false end.

(** [os.path.isfile(p)]. *)
Definition isfile (fs : filesystem) (cwd p : string) : bool :=
  match stat fs cwd p with Some (File _ _) => true | _ => false end.

(** [os.path.isdir(p)]. *)
Definition isdir (fs : filesystem) (cwd p : string) : bool :=
  match stat fs cwd p with Some (Dir _ _) => true | _ => false end.

(** [os.path.getsize(p)]; [None] stands for [OSError]. *)
Definition getsize (fs : filesystem) (cwd p : string) : option Z :=
  match stat fs cwd p with
  | Some (File c _) => Some (len c)
  | Some (Dir _ sz) => Some sz
  | None => None
  end.

(** [os.listdir(p)]; [None] stands for [OSError]. *)
Definition listdir (fs : filesystem) (cwd p : string) : option (list string) :=
  match stat fs cwd p with
  | Some (Dir names _) => Some names
  | _ => None
  end.

End OS.

(** ** Server bootstrap: [main] of serve-sample-data.py *)

Module Bootstrap.
Import PyStr.

(** Configuration *)
Definition DEFAULT_PORT : Z := 8888.
Definition SAMPLE_DATA_DIR : string := "demo/sample-data".

(** What the process is started with and runs in. *)
Record world : Type := {
  argv : list string;          (* sys.argv *)
  script_file : string;        (* __file__ *)
  start_cwd : string;          (* the directory the process starts in *)
  fs : OS.filesystem;
  port_free : Z -> bool;       (* whether bind() to this port succeeds *)
  ephemeral_port : Z;          (* the port the system picks for port 0 *)
  interrupted : bool           (* whether Ctrl+C arrives while serving *)
}.

(** Actions on the process environment, in the order performed. *)
Inductive action : Type :=
| Chdir (path : string)
| SocketOpen
| SocketBind (host : string) (port : Z)
| SocketListen (port : Z)
| SocketClose
| ServeForever
| Shutdown.

(** What reaches standard error: the script itself never writes there,
    only the interpreter does, for an exception nobody caught. *)
Inductive err_item : Type :=
| Traceback (e : exn).

Record proc : Type := {
  cwd : string;
  stdout : list string;        (* one entry per print call *)
  stderr : list err_item;
  actions : list action
}.

Definition P (A : Type) : Type := Eff proc A.

Definition print (line : string) : P unit :=
  modify (fun s => {| cwd := cwd s; stdout := stdout s ++ [line];
                      stderr := stderr s; actions := actions s |}).

Definition act (a : action) : P unit :=
  modify (fun s => {| cwd := cwd s; stdout := stdout s;
                      stderr := stderr s; actions := actions s ++ [a] |}).

Definition set_cwd (d : string) : P unit :=
  modify (fun s => {| cwd := d; stdout := stdout s;
                      stderr := stderr s; actions := actions s |}).

(** [sys.exit(code)]. *)
Definition sys_exit {A} (code : Z) : P A := raise (SystemExit code).

(** [s * n]. *)
Fixpoint repeat_str (s : string) (n : nat) : string :=
  match n with O => EmptyString | S k => s ++ repeat_str s k end.

(** [sorted(names)]: insertion into an ordered list, by character code. *)
Fixpoint insert (x : string) (l : list string) : list string :=
  match l with
  | [] => [x]
  | y :: r => if String.leb x y then x :: l else y :: insert x r
  end.

Fixpoint sorted (l : list string) : list string :=
  match l with
  | [] => []
  | x :: r => insert x (sorted r)
  end.

Section Main.
Variable W : world.

(** [int(sys.argv[1])]. *)
Definition int_of_arg (s : string) : P Z :=
  match py_int s with
  | Some n => ret n
  | None => raise ValueError
  end.

(** [os.chdir(path)]. *)
Definition os_chdir (path : string) : P unit :=
  (s <- get ;;
   match OS.stat (fs W) (cwd s) path with
   | Some (OS.Dir _ _) =>
       act (Chdir path) ;; set_cwd (PosixPath.abspath (cwd s) path)
   | Some (OS.File _ _) => raise NotADirectoryError
   | None => raise OSError
   end)%eff.

(** [os.listdir(path)]. *)
Definition os_listdir (path : string) : P (list string) :=
  (s <- get ;;
   match OS.listdir (fs W) (cwd s) path with
   | Some names => ret names
   | None => raise OSError
   end)%eff.

(** [os.path.getsize(path)]. *)
Definition os_getsize (path : string) : P Z :=
  (s <- get ;;
   match OS.getsize (fs W) (cwd s) path with
   | Some n => ret n
   | None => raise OSError
   end)%eff.

(** [socket.bind((host, port))]: the port must be in 0..65535; port 0
    asks the system for a free port.  Returns the port bound. *)
Definition socket_bind (host : string) (port : Z) : P Z :=
  (act (SocketBind host port) ;;
   if (port <? 0) || (65535 <? port) then raise OverflowError
   else if port =? 0 then ret (ephemeral_port W)
   else if port_free W port then ret port
   else raise OSError)%eff.

(** [HTTPServer((host, port), handler)]: [TCPServer.__init__] opens the
    socket, binds and listens, and closes the socket again when either
    fails.  Returns the port the server listens on. *)
Definition HTTPServer (host : string) (port : Z) : P Z :=
  (act SocketOpen ;;
   try_except
     (bound <- socket_bind host port ;;
      act (SocketListen bound) ;;
      ret bound)
     (fun e => act SocketClose ;; raise e))%eff.

(** [server.serve_forever()]: accepts connections until interrupted. *)
Definition serve_forever : P unit :=
  (act ServeForever ;;
   if interrupted W then raise KeyboardInterrupt
   else fun s => (Blocked, s))%eff.

Definition rule : string := repeat_str "=" 70.

(** The banner line of one file. *)
Definition file_line (port : Z) (f : string) (file_size : Z) : string :=
  "   - http://localhost:" ++ str_of_Z port ++ "/" ++ f
  ++ " (" ++ str_of_Z file_size ++ " bytes)".

(** The path of the directory served: [SAMPLE_DATA_DIR] under the
    directory of the script. *)
Definition sample_data_path : string :=
  PosixPath.join
    (PosixPath.dirname (PosixPath.abspath (start_cwd W) (script_file W)))
    SAMPLE_DATA_DIR.

(** The first statement of [main]: get port from command line or use
    default. *)
Definition port_from_command_line : P Z :=
  (if (1 <? Z.of_nat (List.length (argv W))) then
     try_except (int_of_arg (nth 1 (argv W) EmptyString))
       (fun e =>
          match e with
          | ValueError =>
              print ("Error: Invalid port number '"
                     ++ nth 1 (argv W) EmptyString ++ "'") ;;
              print ("Usage: " ++ nth 0 (argv W) EmptyString ++ " [port]") ;;
              sys_exit 1
          | _ => raise e
          end)
   else ret DEFAULT_PORT)%eff.

Definition main : P unit :=
  (port <- port_from_command_line ;;
   s <- get ;;
   if negb (OS.path_exists (fs W) (cwd s) sample_data_path) then
     print ("Error: Sample data directory not found: " ++ sample_data_path) ;;
     sys_exit 1
   else
   os_chdir sample_data_path ;;
   (* List available files *)
   names <- os_listdir "." ;;
   s <- get ;;
   let files := filter (OS.isfile (fs W) (cwd s)) names in
   (* Create server *)
   _ <- HTTPServer "0.0.0.0" port ;;
   (* Print startup info *)
   print rule ;;
   print "🚀 Druid Sample Data HTTP Server" ;;
   print rule ;;
   print ("📁 Serving directory: " ++ sample_data_path) ;;
   print ("🌐 Server running at: http://localhost:" ++ str_of_Z port ++ "/") ;;
   print ("🌐 Network address:   http://0.0.0.0:" ++ str_of_Z port ++ "/") ;;
   print rule ;;
   print ("📄 Available files ("
          ++ str_of_Z (Z.of_nat (List.length files)) ++ "):") ;;
   for_each (sorted files)
     (fun f =>
        file_size <- os_getsize f ;;
        print (file_line port f file_size)) ;;
   print rule ;;
   print (LF ++ "💡 Usage in Druid:") ;;
   print "   1. Open Druid Console: http://localhost:31888" ;;
   print "   2. Load data → HTTP" ;;
   print ("   3. URI: http://localhost:" ++ str_of_Z port ++ "/<filename>") ;;
   print ("   Example: http://localhost:" ++ str_of_Z port
          ++ "/two-partition-demo.json") ;;
   print (LF ++ "⚠️  Press Ctrl+C to stop the server" ++ LF) ;;
   print rule ;;
   (* Start server *)
   try_except serve_forever
     (fun e =>
        match e with
        | KeyboardInterrupt =>
            print (LF ++ LF ++ "🛑 Server stopped by user") ;;
            act Shutdown ;;
            sys_exit 0
        | _ => raise e
        end))%eff.

(** The state the interpreter starts [main] in. *)
Definition initial : proc :=
  {| cwd := start_cwd W; stdout := []; stderr := []; actions := [] |}.

(** How the process ends: [Some code] is its exit status, [None] means
    it is still serving. *)
Record run : Type := {
  exit_status : option Z;
  final : proc
}.

(** [if __name__ == '__main__': main()] under the interpreter: a
    [SystemExit] ends the process with its code, any other exception
    that reaches the top is reported on standard error and ends the
    process with status 1. *)
Definition script : run :=
  match main initial with
  | (Ret _, s) => {| exit_status := Some 0; final := s |}
  | (Raise (SystemExit c), s) => {| exit_status := Some c; final := s |}
  | (Raise e, s) =>
      {| exit_status := Some 1;
         final := {| cwd := cwd s; stdout := stdout s;
                     stderr := stderr s ++ [Traceback e];
                     actions := actions s |} |}
  | (Blocked, s) => {| exit_status := None; final := s |}
  end.

End Main.

End Bootstrap.

(** ** The request handler *)

Module Handler.
Import PyStr.

(** *** Library functions left abstract

    What the handler obtains from parts of the standard library whose
    result depends on the clock, on the platform or on tables outside
    [http.server]; the handler is modelled for every choice of them. *)
Class Runtime : Type := {
  (* 'Python/' + sys.version.split()[0] *)
  sys_version : string;
  (* sys.getfilesystemencoding() *)
  fs_encoding : string;
  (* date_time_string(timestamp): email.utils.formatdate, None is now *)
  date_time_string : option Z -> string;
  (* log_date_time_string(): the current time formatted for logging *)
  log_date_time_string : string;
  (* repr(s) of a str, the %r conversion *)
  py_repr : string -> string;
  (* urllib.parse.unquote of the request path, as translate_path calls it *)
  unquote : string -> string;
  (* SimpleHTTPRequestHandler.guess_type *)
  guess_type : string -> string;
  (* whether an If-Modified-Since value parses to a UTC time that is not
     before the given modification time *)
  not_modified_since : string -> Z -> bool;
  (* urllib.parse.urlsplit(path).path *)
  urlsplit_path : string -> string;
  (* urlunsplit of the split request path with '/' appended to its path *)
  redirect_url : string -> string;
  (* the encoded HTML page list_directory builds from the request path
     and the entries of the directory (name, whether a directory) *)
  render_listing : string -> list (string * bool) -> string
}.

(** *** Printf-style formatting, [format % args] *)

Inductive pyval : Type :=
| VStr (s : string)
| VInt (n : Z).

Section Format.
Context {RT : Runtime}.

Definition conv_s (v : pyval) : string :=
  match v with VStr s => s | VInt n => str_of_Z n end.

Definition conv_r (v : pyval) : string :=
  match v with VStr s => py_repr s | VInt n => str_of_Z n end.

(** The conversions [%s], [%d], [%r] and [%%], which are the ones the
    callers of the logging hook use.  [inl e] stands for the exception
    raised: too few or too many arguments, a string given to [%d]
    ([TypeError]); any other directive is refused here ([ValueError]). *)
Fixpoint py_format (fmt : string) (args : list pyval) : exn + string :=
  match fmt with
  | EmptyString =>
      match args with [] => inr EmptyString | _ => inl TypeError end
  | String "%" (String c rest) =>
      if Ascii.eqb c "%" then
        match py_format rest args with
        | inr s => inr (String "%" s)
        | inl e => inl e
        end
      else
        let conv : option (pyval -> option string) :=
          if Ascii.eqb c "s" then Some (fun v => Some (conv_s v))
          else if Ascii.eqb c "r" then Some (fun v => Some (conv_r v))
          else if Ascii.eqb c "d" then
            Some (fun v => match v with
                           | VInt n => Some (str_of_Z n)
                           | VStr _ => None
                           end)
          else None in
        match conv, args with
        | None, _ => inl ValueError
        | Some _, [] => inl TypeError
        | Some f, v :: more =>
            match f v, py_format rest more with
            | Some x, inr s => inr (x ++ s)
            | None, _ => inl TypeError
            | _, inl e => inl e
            end
        end
  | String "%" EmptyString => inl ValueError
  | String c rest =>
      match py_format rest args with
      | inr s => inr (String c s)
      | inl e => inl e
      end
  end.

End Format.

(** [message.translate(self._control_char_table)]: the characters below
    0x20 and from 0x7f to 0x9f become a backslash, x and two hexadecimal
    digits, a backslash is doubled. *)
Definition hex_digit (n : nat) : ascii :=
  ascii_of_nat (if (n <? 10)%nat then 48 + n else 87 + n).

Fixpoint escape_control (s : string) : string :=
  match s with
  | EmptyString => EmptyString
  | String c r =>
      let n := code c in
      (if ((n <? 32) || (127 <=? n) && (n <? 160))%nat then
         String "\" (String "x" (String (hex_digit (n / 16))
                                  (String (hex_digit (n mod 16)) EmptyString)))
       else if Ascii.eqb c "\" then "\\"
       else String c EmptyString) ++ escape_control r
  end.

(** *** HTTP status codes: [BaseHTTPRequestHandler.responses] *)

Definition responses (code : Z) : option (string * string) :=
  match code with
  | 100 => Some ("Continue", "Request received, please continue")
  | 101 => Some ("Switching Protocols", "Switching to new protocol; obey Upgrade header")
  | 102 => Some ("Processing", "")
  | 103 => Some ("Early Hints", "")
  | 200 => Some ("OK", "Request fulfilled, document follows")
  | 201 => Some ("Created", "Document created, URL follows")
  | 202 => Some ("Accepted", "Request accepted, processing continues off-line")
  | 203 => Some ("Non-Authoritative Information", "Request fulfilled from cache")
  | 204 => Some ("No Content", "Request fulfilled, nothing follows")
  | 205 => Some ("Reset Content", "Clear input form for further input")
  | 206 => Some ("Partial Content", "Partial content follows")
  | 207 => Some ("Multi-Status", "")
  | 208 => Some ("Already Reported", "")
  | 226 => Some ("IM Used", "")
  | 300 => Some ("Multiple Choices", "Object has several resources -- see URI list")
  | 301 => Some ("Moved Permanently", "Object moved permanently -- see URI list")
  | 302 => Some ("Found", "Object moved temporarily -- see URI list")
  | 303 => Some ("See Other", "Object moved -- see Method and URL list")
  | 304 => Some ("Not Modified", "Document has not changed since given time")
  | 305 => Some ("Use Proxy", "You must use proxy specified in Location to access this resource")
  | 307 => Some ("Temporary Redirect", "Object moved temporarily -- see URI list")
  | 308 => Some ("Permanent Redirect", "Object moved permanently -- see URI list")
  | 400 => Some ("Bad Request", "Bad request syntax or unsupported method")
  | 401 => Some ("Unauthorized", "No permission -- see authorization schemes")
  | 402 => Some ("Payment Required", "No payment -- see charging schemes")
  | 403 => Some ("Forbidden", "Request forbidden -- authorization will not help")
  | 404 => Some ("Not Found", "Nothing matches the given URI")
  | 405 => Some ("Method Not Allowed", "Specified method is invalid for this resource")
  | 406 => Some ("Not Acceptable", "URI not available in preferred format")
  | 407 => Some ("Proxy Authentication Required", "You must authenticate with this proxy before proceeding")
  | 408 => Some ("Request Timeout", "Request timed out; try again later")
  | 409 => Some ("Conflict", "Request conflict")
  | 410 => Some ("Gone", "URI no longer exists and has been permanently removed")
  | 411 => Some ("Length Required", "Client must specify Content-Length")
  | 412 => Some ("Precondition Failed", "Precondition in headers is false")
  | 413 => Some ("Request Entity Too Large", "Entity is too large")
  | 414 => Some ("Request-URI Too Long", "URI is too long")
  | 415 => Some ("Unsupported Media Type", "Entity body in unsupported format")
  | 416 => Some ("Requested Range Not Satisfiable", "Cannot satisfy request range")
  | 417 => Some ("Expectation Failed", "Expect condition could not be satisfied")
  | 418 => Some ("I'm a Teapot", "Server refuses to brew coffee because it is a teapot.")
  | 421 => Some ("Misdirected Request", "Server is not able to produce a response")
  | 422 => Some ("Unprocessable Entity", "")
  | 423 => Some ("Locked", "")
  | 424 => Some ("Failed Dependency", "")
  | 425 => Some ("Too Early", "")
  | 426 => Some ("Upgrade Required", "")
  | 428 => Some ("Precondition Required", "The origin server requires the request to be conditional")
  | 429 => Some ("Too Many Requests", "The user has sent too many requests in a given amount of time (" ++ DQUOTE ++ "rate limiting" ++ DQUOTE ++ ")")
  | 431 => Some ("Request Header Fields Too Large", "The server is unwilling to process the request because its header fields are too large")
  | 451 => Some ("Unavailable For Legal Reasons", "The server is denying access to the resource as a consequence of a legal demand")
  | 500 => Some ("Internal Server Error", "Server got itself in trouble")
  | 501 => Some ("Not Implemented", "Server does not support this operation")
  | 502 => Some ("Bad Gateway", "Invalid responses from another server/proxy")
  | 503 => Some ("Service Unavailable", "The server cannot process the request due to a high load")
  | 504 => Some ("Gateway Timeout", "The gateway server did not receive a timely response")
  | 505 => Some ("HTTP Version Not Supported", "Cannot fulfill request")
  | 506 => Some ("Variant Also Negotiates", "")
  | 507 => Some ("Insufficient Storage", "")
  | 508 => Some ("Loop Detected", "")
  | 510 => Some ("Not Extended", "")
  | 511 => Some ("Network Authentication Required", "The client needs to authenticate to gain network access")
  | _ => None
  end.

(** *** The request as read from the connection *)

(** The outcome of [http.client.parse_headers] on the lines after the
    request line. *)
Inductive header_parse : Type :=
| Headers (fields : list (string * string))
| LineTooLong (err : string)
| TooManyHeaders (err : string).

Record request : Type := {
  raw_requestline : string;   (* rfile.readline(65537) *)
  raw_headers : header_parse
}.

(** [headers.get(name)]: the first field of that name, whatever its case. *)
Fixpoint headers_get (fields : list (string * string)) (name : string)
  : option string :=
  match fields with
  | [] => None
  | (k, v) :: rest =>
      if String.eqb (lower k) (lower name) then Some v
      else headers_get rest name
  end.

(** *** The handler object *)

Record handler : Type := {
  client_address : string;    (* client_address[0] *)
  directory : string;         (* os.getcwd() when the handler is made *)
  requestline : string;
  request_version : string;
  command : option string;
  path : string;
  headers : list (string * string);
  close_connection : bool;
  headers_buffer : option (list string);   (* _headers_buffer, once set *)
  wfile : string;             (* the bytes written to the client *)
  stdout : list string;       (* one entry per print call *)
  stderr : string             (* what is written to sys.stderr *)
}.

Definition H (A : Type) : Type := Eff handler A.

Definition set_requestline (x : string) (s : handler) : handler :=
  {| client_address := client_address s; directory := directory s;
     requestline := x; request_version := request_version s;
     command := command s; path := path s; headers := headers s;
     close_connection := close_connection s;
     headers_buffer := headers_buffer s; wfile := wfile s;
     stdout := stdout s; stderr := stderr s |}.

Definition set_request_version (x : string) (s : handler) : handler :=
  {| client_address := client_address s; directory := directory s;
     requestline := requestline s; request_version := x;
     command := command s; path := path s; headers := headers s;
     close_connection := close_connection s;
     headers_buffer := headers_buffer s; wfile := wfile s;
     stdout := stdout s; stderr := stderr s |}.

Definition set_command (x : option string) (s : handler) : handler :=
  {| client_address := client_address s; directory := directory s;
     requestline := requestline s; request_version := request_version s;
     command := x; path := path s; headers := headers s;
     close_connection := close_connection s;
     headers_buffer := headers_buffer s; wfile := wfile s;
     stdout := stdout s; stderr := stderr s |}.

Definition set_path (x : string) (s : handler) : handler :=
  {| client_address := client_address s; directory := directory s;
     requestline := requestline s; request_version := request_version s;
     command := command s; path := x; headers := headers s;
     close_connection := close_connection s;
     headers_buffer := headers_buffer s; wfile := wfile s;
     stdout := stdout s; stderr := stderr s |}.

Definition set_headers (x : list (string * string)) (s : handler) : handler :=
  {| client_address := client_address s; directory := directory s;
     requestline := requestline s; request_version := request_version s;
     command := command s; path := path s; headers := x;
     close_connection := close_connection s;
     headers_buffer := headers_buffer s; wfile := wfile s;
     stdout := stdout s; stderr := stderr s |}.

Definition set_close_connection (x : bool) (s : handler) : handler :=
  {| client_address := client_address s; directory := directory s;
     requestline := requestline s; request_version := request_version s;
     command := command s; path := path s; headers := headers s;
     close_connection := x;
     headers_buffer := headers_buffer s; wfile := wfile s;
     stdout := stdout s; stderr := stderr s |}.

Definition set_headers_buffer (x : option (list string)) (s : handler)
  : handler :=
  {| client_address := client_address s; directory := directory s;
     requestline := requestline s; request_version := request_version s;
     command := command s; path := path s; headers := headers s;
     close_connection := close_connection s;
     headers_buffer := x; wfile := wfile s;
     stdout := stdout s; stderr := stderr s |}.

Definition set_wfile (x : string) (s : handler) : handler :=
  {| client_address := client_address s; directory := directory s;
     requestline := requestline s; request_version := request_version s;
     command := command s; path := path s; headers := headers s;
     close_connection := close_connection s;
     headers_buffer := headers_buffer s; wfile := x;
     stdout := stdout s; stderr := stderr s |}.

Definition set_stdout (x : list string) (s : handler) : handler :=
  {| client_address := client_address s; directory := directory s;
     requestline := requestline s; request_version := request_version s;
     command := command s; path := path s; headers := headers s;
     close_connection := close_connection s;
     headers_buffer := headers_buffer s; wfile := wfile s;
     stdout := x; stderr := stderr s |}.

Definition set_stderr (x : string) (s : handler) : handler :=
  {| client_address := client_address s; directory := directory s;
     requestline := requestline s; request_version := request_version s;
     command := command s; path := path s; headers := headers s;
     close_connection := close_connection s;
     headers_buffer := headers_buffer s; wfile := wfile s;
     stdout := stdout s; stderr := x |}.

(** [print(line)]. *)
Definition print (line : string) : H unit :=
  modify (fun s => set_stdout (stdout s ++ [line]) s).

(** [self.wfile.write(data)]. *)
Definition wfile_write (data : string) : H unit :=
  modify (fun s => set_wfile (wfile s ++ data) s).

(** *** Class attributes *)

Definition protocol_version : string := "HTTP/1.0".
Definition default_request_version : string := "HTTP/0.9".
Definition server_version : string := "SimpleHTTP/0.6".
Definition error_content_type : string := "text/html;charset=utf-8".

(** [error_message_format % {'code': .., 'message': .., 'explain': ..}]. *)
Definition error_message_format (code : Z) (message explain : string)
  : string :=
  "<!DOCTYPE HTML>" ++ LF
  ++ "<html lang=" ++ DQUOTE ++ "en" ++ DQUOTE ++ ">" ++ LF
  ++ "    <head>" ++ LF
  ++ "        <meta charset=" ++ DQUOTE ++ "utf-8" ++ DQUOTE ++ ">" ++ LF
  ++ "        <title>Error response</title>" ++ LF
  ++ "    </head>" ++ LF
  ++ "    <body>" ++ LF
  ++ "        <h1>Error response</h1>" ++ LF
  ++ "        <p>Error code: " ++ str_of_Z code ++ "</p>" ++ LF
  ++ "        <p>Message: " ++ message ++ ".</p>" ++ LF
  ++ "        <p>Error code explanation: " ++ str_of_Z code ++ " - "
  ++ explain ++ ".</p>" ++ LF
  ++ "    </body>" ++ LF
  ++ "</html>" ++ LF.

(** The version of a request line: [HTTP/<major>.<minor>].  Returns the
    text after the slash and the two numbers; [None] stands for the
    [ValueError] or [IndexError] caught in [parse_request]. *)
Definition parse_version (version : string) : option (string * (Z * Z)) :=
  if negb (startswith "HTTP/" version) then None
  else
    match after_first "/" version with
    | None => None
    | Some base_version_number =>
        match split_char "." base_version_number with
        | [major; minor] =>
            match py_int major, py_int minor with
            | Some a, Some b => Some (base_version_number, (a, b))
            | _, _ => None
            end
        | _ => None
        end
    end.

(** [(a, b) >= (c, d)] on pairs of integers. *)
Definition pair_ge (x y : Z * Z) : bool :=
  (fst y <? fst x) || ((fst x =? fst y) && (snd y <=? snd x)).

(** The three headers [end_headers] of the script adds. *)
Definition CORS_HEADERS : list (string * string) :=
  [("Access-Control-Allow-Origin", "*");
   ("Access-Control-Allow-Methods", "GET, OPTIONS");
   ("Access-Control-Allow-Headers", "Content-Type")].

(** A header as it is written to the client. *)
Definition header_line (keyword value : string) : string :=
  keyword ++ ": " ++ value ++ CRLF.

Section Methods.
Context {RT : Runtime}.
Variable fs : OS.filesystem.
Variable req : request.

Local Open Scope eff_scope.

(** [BaseHTTPRequestHandler.address_string]. *)
Definition address_string : H string :=
  s <- get ;; ret (client_address s).

(** [BaseHTTPRequestHandler.log_message], which the script overrides:
    the message goes to [sys.stderr], control characters escaped. *)
Definition base_log_message (format : string) (args : list pyval) : H unit :=
  match py_format format args with
  | inr message =>
      addr <- address_string ;;
      modify (fun s =>
                set_stderr
                  (stderr s ++ addr ++ " - - [" ++ log_date_time_string
                   ++ "] " ++ escape_control message ++ LF) s)
  | inl e => raise e
  end.

(** [CustomHTTPRequestHandler.log_message]:
    [print(f'[HTTP] {self.address_string()} - {format % args}')]. *)
Definition log_message (format : string) (args : list pyval) : H unit :=
  addr <- address_string ;;
  match py_format format args with
  | inr message => print ("[HTTP] " ++ addr ++ " - " ++ message)
  | inl e => raise e
  end.

(** [BaseHTTPRequestHandler.log_request(code)], the size left at '-'. *)
Definition log_request (code : Z) : H unit :=
  s <- get ;;
  log_message (DQUOTE ++ "%s" ++ DQUOTE ++ " %s %s")
    [VStr (requestline s); VStr (str_of_Z code); VStr "-"].

(** [BaseHTTPRequestHandler.log_error]. *)
Definition log_error (format : string) (args : list pyval) : H unit :=
  log_message format args.

(** [BaseHTTPRequestHandler.version_string]. *)
Definition version_string : string := server_version ++ " " ++ sys_version.

(** [BaseHTTPRequestHandler.send_response_only]. *)
Definition send_response_only (code : Z) (message : option string) : H unit :=
  s <- get ;;
  if negb (String.eqb (request_version s) "HTTP/0.9") then
    let message :=
      match message with
      | Some m => m
      | None => match responses code with
                | Some (phrase, _) => phrase
                | None => EmptyString
                end
      end in
    let buffer :=
      match headers_buffer s with Some b => b | None => [] end in
    modify (set_headers_buffer
              (Some (list_append buffer
                       (protocol_version ++ " " ++ str_of_Z code
                        ++ " " ++ message ++ CRLF))))
  else ret tt.

(** [BaseHTTPRequestHandler.send_header]. *)
Definition send_header (keyword value : string) : H unit :=
  s <- get ;;
  (if negb (String.eqb (request_version s) "HTTP/0.9") then
     let buffer :=
       match headers_buffer s with Some b => b | None => [] end in
     modify (set_headers_buffer
               (Some (list_append buffer (header_line keyword value))))
   else ret tt) ;;
  if String.eqb (lower keyword) "connection" then
    if String.eqb (lower value) "close" then
      modify (set_close_connection true)
    else if String.eqb (lower value) "keep-alive" then
      modify (set_close_connection false)
    else ret tt
  else ret tt.

(** [BaseHTTPRequestHandler.flush_headers]. *)
Definition flush_headers : H unit :=
  s <- get ;;
  match headers_buffer s with
  | Some buffer =>
      wfile_write (String.concat EmptyString buffer) ;;
      modify (set_headers_buffer (Some []))
  | None => ret tt
  end.

(** [SimpleHTTPRequestHandler.end_headers], inherited from
    [BaseHTTPRequestHandler]. *)
Definition base_end_headers : H unit :=
  s <- get ;;
  if negb (String.eqb (request_version s) "HTTP/0.9") then
    match headers_buffer s with
    | Some buffer =>
        modify (set_headers_buffer (Some (list_append buffer CRLF))) ;;
        flush_headers
    | None => raise AttributeError
    end
  else ret tt.

(** [CustomHTTPRequestHandler.end_headers]: add CORS headers for
    cross-origin requests. *)
Definition end_headers : H unit :=
  send_header "Access-Control-Allow-Origin" "*" ;;
  send_header "Access-Control-Allow-Methods" "GET, OPTIONS" ;;
  send_header "Access-Control-Allow-Headers" "Content-Type" ;;
  base_end_headers.

(** [BaseHTTPRequestHandler.send_response]. *)
Definition send_response (code : Z) (message : option string) : H unit :=
  log_request code ;;
  send_response_only code message ;;
  send_header "Server" version_string ;;
  send_header "Date" (date_time_string None).

(** [BaseHTTPRequestHandler.send_error]. *)
Definition send_error (code : Z) (message explain : option string) : H unit :=
  let '(shortmsg, longmsg) :=
    match responses code with
    | Some r => r
    | None => ("???", "???")
    end in
  let message := match message with Some m => m | None => shortmsg end in
  let explain := match explain with Some x => x | None => longmsg end in
  log_error "code %d, message %s" [VInt code; VStr message] ;;
  send_response code (Some message) ;;
  send_header "Connection" "close" ;;
  let body :=
    if (200 <=? code)
       && negb ((code =? 204) || (code =? 205) || (code =? 304))
    then Some (utf8_encode
                 (error_message_format code (html_escape message)
                    (html_escape explain)))
    else None in
  match body with
  | Some b =>
      send_header "Content-Type" error_content_type ;;
      send_header "Content-Length" (str_of_Z (len b))
  | None => ret tt
  end ;;
  end_headers ;;
  s <- get ;;
  match body with
  | Some b =>
      if negb (match command s with
               | Some c => String.eqb c "HEAD"
               | None => false
               end)
         && negb (String.eqb b EmptyString)
      then wfile_write b
      else ret tt
  | None => ret tt
  end.

(** [BaseHTTPRequestHandler.handle_expect_100]. *)
Definition handle_expect_100 : H bool :=
  send_response_only 100 None ;;
  end_headers ;;
  ret true.

(** The part of [parse_request] after the request line is accepted:
    the command and path are stored and the headers examined. *)
Definition parse_request_headers (command path : string) : H bool :=
  modify (set_command (Some command)) ;;
  modify (set_path
            (if startswith "//" path
             then "/" ++ lstrip_char "/" path else path)) ;;
  (* Examine the headers and look for a Connection directive. *)
  match raw_headers req with
  | LineTooLong err =>
      send_error 431 (Some "Line too long") (Some err) ;;
      ret false
  | TooManyHeaders err =>
      send_error 431 (Some "Too many headers") (Some err) ;;
      ret false
  | Headers fields =>
      modify (set_headers fields) ;;
      let conntype :=
        match headers_get fields "Connection" with
        | Some v => v | None => EmptyString
        end in
      (if String.eqb (lower conntype) "close" then
         modify (set_close_connection true)
       else if String.eqb (lower conntype) "keep-alive"
               && String.leb "HTTP/1.1" protocol_version then
         modify (set_close_connection false)
       else ret tt) ;;
      (* Examine the headers and look for an Expect directive *)
      let expect :=
        match headers_get fields "Expect" with
        | Some v => v | None => EmptyString
        end in
      s <- get ;;
      if String.eqb (lower expect) "100-continue"
         && String.leb "HTTP/1.1" protocol_version
         && String.leb "HTTP/1.1" (request_version s)
      then
        continue <- handle_expect_100 ;;
        if negb continue then ret false else ret true
      else ret true
  end.

(** The part of [parse_request] that examines the version, when the
    request line has words enough to hold one; [false] when an error
    response has been sent. *)
Definition parse_request_version (words : list string) : H bool :=
  if (3 <=? Z.of_nat (List.length words)) then
    let version := List.last words EmptyString in
    match parse_version version with
    | None =>
        send_error 400
          (Some ("Bad request version (" ++ py_repr version ++ ")"))
          None ;;
        ret false
    | Some (base_version_number, version_number) =>
        (if pair_ge version_number (1, 1)
            && String.leb "HTTP/1.1" protocol_version
         then modify (set_close_connection false) else ret tt) ;;
        if pair_ge version_number (2, 0) then
          send_error 505
            (Some ("Invalid HTTP version (" ++ base_version_number ++ ")"))
            None ;;
          ret false
        else
          modify (set_request_version version) ;; ret true
    end
  else ret true.

(** [BaseHTTPRequestHandler.parse_request]. *)
Definition parse_request : H bool :=
  modify (set_command None) ;;
  modify (set_request_version default_request_version) ;;
  modify (set_close_connection true) ;;
  let requestline := rstrip_crlf (raw_requestline req) in
  modify (set_requestline requestline) ;;
  let words := split_ws requestline in
  match words with
  | [] => ret false
  | _ =>
      ok <- parse_request_version words ;;
      if negb ok then ret false
      else
        match words with
        | [command; path] =>
            modify (set_close_connection true) ;;
            if negb (String.eqb command "GET") then
              send_error 400
                (Some ("Bad HTTP/0.9 request type ("
                       ++ py_repr command ++ ")"))
                None ;;
              ret false
            else parse_request_headers command path
        | [command; path; _] => parse_request_headers command path
        | _ =>
            send_error 400
              (Some ("Bad request syntax (" ++ py_repr requestline ++ ")"))
              None ;;
            ret false
        end
  end.

(** *** [SimpleHTTPRequestHandler] *)

(** The test [translate_path] applies to each word of the path: a word
    that is not a simple file or directory name is ignored. *)
Definition ignored_word (word : string) : bool :=
  negb (String.eqb (PosixPath.dirname word) EmptyString)
  || String.eqb word "." || String.eqb word "..".

(** [SimpleHTTPRequestHandler.translate_path], with [self.directory]
    explicit. *)
Definition translate_path (directory path : string) : string :=
  (* abandon query parameters *)
  let path := before_first "?" path in
  let path := before_first "#" path in
  let trailing_slash := endswith_char "/" (rstrip path) in
  let path := unquote path in
  let path := PosixPath.normpath path in
  let words := split_char "/" path in
  let words := filter (fun w => negb (String.eqb w EmptyString)) words in
  let path :=
    fold_left
      (fun path word =>
         if ignored_word word then path else PosixPath.join path word)
      words directory in
  if trailing_slash then path ++ "/" else path.

(** [open(path, 'rb')] followed by [os.fstat]: the bytes and the
    modification time of the file, [None] for [OSError]; a path with a
    null character raises [ValueError]. *)
Definition open_rb (path : string) : H (option (string * Z)) :=
  s <- get ;;
  if OS.has_nul path then raise ValueError
  else
    match OS.stat fs (directory s) path with
    | Some (OS.File content mtime) => ret (Some (content, mtime))
    | _ => ret None
    end.

(** [name in self.headers]. *)
Definition has_header (name : string) : H bool :=
  s <- get ;;
  ret (match headers_get (headers s) name with
       | Some _ => true | None => false
       end).

(** [SimpleHTTPRequestHandler.list_directory]. *)
Definition list_directory (path : string) : H (option string) :=
  s <- get ;;
  match OS.listdir fs (directory s) path with
  | None =>
      send_error 404 (Some "No permission to list directory") None ;;
      ret None
  | Some names =>
      let entries :=
        map (fun name =>
               (name, OS.isdir fs (directory s) (PosixPath.join path name)))
          names in
      let encoded := render_listing (Handler.path s) entries in
      send_response 200 None ;;
      send_header "Content-type" ("text/html; charset=" ++ fs_encoding) ;;
      send_header "Content-Length" (str_of_Z (len encoded)) ;;
      end_headers ;;
      ret (Some encoded)
  end.

(** The part of [send_head] after the directory case: the file at
    [path] is opened and its headers are sent. *)
Definition send_head_file (path : string) : H (option string) :=
  let ctype := guess_type path in
  if endswith_char "/" path then
    send_error 404 (Some "File not found") None ;;
    ret None
  else
    f <- open_rb path ;;
    match f with
    | None =>
        send_error 404 (Some "File not found") None ;;
        ret None
    | Some (content, mtime) =>
        s <- get ;;
        ims <- has_header "If-Modified-Since" ;;
        inm <- has_header "If-None-Match" ;;
        if ims && negb inm
           && not_modified_since
                (match headers_get (headers s) "If-Modified-Since" with
                 | Some v => v | None => EmptyString
                 end) mtime
        then
          send_response 304 None ;;
          end_headers ;;
          ret None
        else
          send_response 200 None ;;
          send_header "Content-type" ctype ;;
          send_header "Content-Length" (str_of_Z (len content)) ;;
          send_header "Last-Modified" (date_time_string (Some mtime)) ;;
          end_headers ;;
          ret (Some content)
    end.

(** [SimpleHTTPRequestHandler.send_head]: the file object to copy, or
    [None] when there is nothing further to do. *)
Definition send_head : H (option string) :=
  s <- get ;;
  let path := translate_path (directory s) (Handler.path s) in
  if OS.isdir fs (directory s) path then
    if negb (endswith_char "/" (urlsplit_path (Handler.path s))) then
      (* redirect browser - doing basically what apache does *)
      send_response 301 None ;;
      send_header "Location" (redirect_url (Handler.path s)) ;;
      send_header "Content-Length" "0" ;;
      end_headers ;;
      ret None
    else
      match find (OS.isfile fs (directory s))
              [PosixPath.join path "index.html";
               PosixPath.join path "index.htm"] with
      | Some index => send_head_file index
      | None => list_directory path
      end
  else send_head_file path.

(** [SimpleHTTPRequestHandler.do_GET]. *)
Definition do_GET : H unit :=
  f <- send_head ;;
  match f with
  | Some data => wfile_write data
  | None => ret tt
  end.

(** [SimpleHTTPRequestHandler.do_HEAD]. *)
Definition do_HEAD : H unit :=
  f <- send_head ;;
  ret tt.

(** [getattr(self, mname)] for the request methods: the class and its
    bases define [do_GET] and [do_HEAD] and no other; [None] when
    [hasattr(self, mname)] is false. *)
Definition get_method (mname : string) : option (H unit) :=
  if String.eqb mname "do_GET" then Some do_GET
  else if String.eqb mname "do_HEAD" then Some do_HEAD
  else None.

(** [BaseHTTPRequestHandler.handle_one_request]. *)
Definition handle_one_request : H unit :=
  if (65536 <? len (raw_requestline req)) then
    modify (set_requestline EmptyString) ;;
    modify (set_request_version EmptyString) ;;
    modify (set_command (Some EmptyString)) ;;
    send_error 414 None None
  else if String.eqb (raw_requestline req) EmptyString then
    modify (set_close_connection true)
  else
    ok <- parse_request ;;
    if negb ok then ret tt
    else
      s <- get ;;
      match command s with
      | None => raise TypeError
      | Some command =>
          let mname := "do_" ++ command in
          match get_method mname with
          | None =>
              send_error 501
                (Some ("Unsupported method (" ++ py_repr command ++ ")"))
                None
          | Some method => method
          end
      end.

(** The handler object made for a connection from [client], in a
    process whose current directory is [dir]. *)
Definition new_handler (client dir : string) : handler :=
  {| client_address := client; directory := dir;
     requestline := EmptyString;
     request_version := default_request_version;
     command := None; path := EmptyString; headers := [];
     close_connection := true; headers_buffer := None;
     wfile := EmptyString; stdout := []; stderr := EmptyString |}.

(** One request served on a fresh connection. *)
Definition serve (client dir : string) : res unit * handler :=
  handle_one_request (new_handler client dir).

End Methods.

End Handler.

(** ** Sample inputs *)

Module Demo.
Import PyStr.

(** A file system with the script in /opt/druid, two data files and a
    subdirectory in its sample-data directory, and a file outside. *)
Definition sample_fs : OS.filesystem := fun p =>
  if String.eqb p "/opt/druid/demo/sample-data"
  then Some (OS.Dir ["b.csv"; "sub"; "a.json"] 4096)
  else if String.eqb p "/opt/druid/demo/sample-data/a.json"
  then Some (OS.File "0123456789" 1700000000)
  else if String.eqb p "/opt/druid/demo/sample-data/b.csv"
  then Some (OS.File "01234567890123456789" 1700000000)
  else if String.eqb p "/opt/druid/demo/sample-data/sub"
  then Some (OS.Dir [] 4096)
  else if String.eqb p "/etc/passwd"
  then Some (OS.File "root:x:0:0:root:/root:/bin/sh" 1600000000)
  else None.

(** The same, with a regular file where the directory should be. *)
Definition file_fs : OS.filesystem := fun p =>
  if String.eqb p "/opt/druid/demo/sample-data"
  then Some (OS.File "not a directory" 1700000000)
  else None.

(** Nothing at all. *)
Definition empty_fs : OS.filesystem := fun _ => None.

(** The script started from another directory with the given arguments. *)
Definition world_with (files : OS.filesystem) (args : list string)
  : Bootstrap.world :=
  {| Bootstrap.argv := "serve-sample-data.py" :: args;
     Bootstrap.script_file := "/opt/druid/serve-sample-data.py";
     Bootstrap.start_cwd := "/home/operator";
     Bootstrap.fs := files;
     Bootstrap.port_free := fun _ => true;
     Bootstrap.ephemeral_port := 40000;
     Bootstrap.interrupted := false |}.

(** Percent-decoding of the ASCII escapes [%2E], [%2e], [%2F] and [%2f]. *)
Fixpoint unquote_dots (s : string) : string :=
  match s with
  | String "%" (String "2" (String c r)) =>
      if Ascii.eqb c "E" || Ascii.eqb c "e" then String "." (unquote_dots r)
      else if Ascii.eqb c "F" || Ascii.eqb c "f"
      then String "/" (unquote_dots r)
      else String "%" (String "2" (String c (unquote_dots r)))
  | String c r => String c (unquote_dots r)
  | EmptyString => EmptyString
  end.

(** One choice of the library functions left abstract.  Its [py_repr]
    is what [repr] gives for a string of plain letters, digits and
    punctuation other than quotes and backslashes. *)
Definition runtime : Handler.Runtime :=
  {| Handler.sys_version := "Python/3.11.2";
     Handler.fs_encoding := "utf-8";
     Handler.date_time_string := fun _ => "Thu, 01 Jan 1970 00:00:00 GMT";
     Handler.log_date_time_string := "01/Jan/1970 00:00:00";
     Handler.py_repr := fun s => "'" ++ s ++ "'";
     Handler.unquote := unquote_dots;
     Handler.guess_type := fun _ => "application/octet-stream";
     Handler.not_modified_since := fun _ _ => false;
     Handler.urlsplit_path := fun s => before_first "?" s;
     Handler.redirect_url := fun s => s ++ "/";
     Handler.render_listing := fun _ _ => "<!DOCTYPE HTML>" |}.

(** A request of one line and no header field. *)
Definition request_line (line : string) : Handler.request :=
  {| Handler.raw_requestline := line ++ CRLF;
     Handler.raw_headers := Handler.Headers [] |}.

(** The handler state after serving that request from the sample files. *)
Definition served (line : string) : res unit * Handler.handler :=
  Handler.serve (RT := runtime) sample_fs (request_line line)
    "10.0.0.7" "/opt/druid/demo/sample-data".

(** The same process, interrupted with Ctrl+C while it serves. *)
Definition interrupted_world (files : OS.filesystem) (args : list string)
  : Bootstrap.world :=
  {| Bootstrap.argv := "serve-sample-data.py" :: args;
     Bootstrap.script_file := "/opt/druid/serve-sample-data.py";
     Bootstrap.start_cwd := "/home/operator";
     Bootstrap.fs := files;
     Bootstrap.port_free := fun _ => true;
     Bootstrap.ephemeral_port := 40000;
     Bootstrap.interrupted := true |}.

(** The same process on a machine where every port is taken. *)
Definition busy_world (files : OS.filesystem) (args : list string)
  : Bootstrap.world :=
  {| Bootstrap.argv := "serve-sample-data.py" :: args;
     Bootstrap.script_file := "/opt/druid/serve-sample-data.py";
     Bootstrap.start_cwd := "/home/operator";
     Bootstrap.fs := files;
     Bootstrap.port_free := fun _ => false;
     Bootstrap.ephemeral_port := 40000;
     Bootstrap.interrupted := false |}.

End Demo.

(** ** Vocabulary of the properties *)

Module BootstrapSpec.
Import PyStr Bootstrap.

(** The port the command line asks for: the default when there is no
    argument, the integer the first argument denotes otherwise. *)
Definition port_argument (W : world) (p : Z) : Prop :=
  ((List.length (argv W) <= 1)%nat /\ p = DEFAULT_PORT)
  \/ ((1 < List.length (argv W))%nat
      /\ py_int (nth 1 (argv W) EmptyString) = Some p).

Definition name_le (a b : string) : Prop := String.leb a b = true.

(** The size [os.path.getsize] reports for a name in directory [root]. *)
Definition size_in (W : world) (root f : string) : Z :=
  match OS.getsize (fs W) root f with Some n => n | None => 0 end.

(** The lines of the banner before and after the list of files. *)
Definition banner_head (port : Z) (served : string) (count : nat)
  : list string :=
  [rule;
   "🚀 Druid Sample Data HTTP Server";
   rule;
   "📁 Serving directory: " ++ served;
   "🌐 Server running at: http://localhost:" ++ str_of_Z port ++ "/";
   "🌐 Network address:   http://0.0.0.0:" ++ str_of_Z port ++ "/";
   rule;
   "📄 Available files (" ++ str_of_Z (Z.of_nat count) ++ "):"].

Definition banner_tail (port : Z) : list string :=
  [rule;
   LF ++ "💡 Usage in Druid:";
   "   1. Open Druid Console: http://localhost:31888";
   "   2. Load data → HTTP";
   "   3. URI: http://localhost:" ++ str_of_Z port ++ "/<filename>";
   "   Example: http://localhost:" ++ str_of_Z port
   ++ "/two-partition-demo.json";
   LF ++ "⚠️  Press Ctrl+C to stop the server" ++ LF;
   rule].

(** The directory served, as the process sees it after [os.chdir]. *)
Definition served_root (W : world) : string :=
  PosixPath.abspath (start_cwd W) (sample_data_path W).

(** The names the banner lists. *)
Definition listed (W : world) (entries : list string) : list string :=
  sorted (filter (OS.isfile (fs W) (served_root W)) entries).

(** What the banner says of one file: its URL on the port and its size. *)
Definition describes (W : world) (p : Z) (f line : string) : Prop :=
  exists (c : string) (m : Z),
    OS.stat (fs W) (served_root W) f = Some (OS.File c m)
    /\ line = "   - http://localhost:" ++ str_of_Z p ++ "/" ++ f
              ++ " (" ++ str_of_Z (len c) ++ " bytes)".

(** The exception [socket.bind] raises for a port, if any. *)
Definition bind_error (W : world) (p : Z) : option exn :=
  if (p <? 0) || (65535 <? p) then Some OverflowError
  else if p =? 0 then None
  else if port_free W p then None
  else Some OSError.

(** The port the socket is bound to when [socket.bind] succeeds. *)
Definition bound_port (W : world) (p : Z) : Z :=
  if p =? 0 then ephemeral_port W else p.

(** The last line printed when the server is stopped. *)
Definition stop_message : string :=
  LF ++ LF ++ "🛑 Server stopped by user".

(** The actions of a run that reaches the accept loop. *)
Definition serving_actions (W : world) (p : Z) : list action :=
  [Chdir (sample_data_path W); SocketOpen; SocketBind "0.0.0.0" p;
   SocketListen (bound_port W p); ServeForever].

End BootstrapSpec.

Module HandlerSpec.
Import PyStr Handler.

(** The header block [end_headers] of the script adds. *)
Definition cors_block : string :=
  header_line "Access-Control-Allow-Origin" "*"
  ++ header_line "Access-Control-Allow-Methods" "GET, OPTIONS"
  ++ header_line "Access-Control-Allow-Headers" "Content-Type".

(** The headers buffered so far, none when the buffer is not yet set. *)
Definition buffered (st : handler) : list string :=
  match headers_buffer st with Some b => b | None => [] end.

(** The reason phrase [send_response_only] writes. *)
Definition reason_phrase (code : Z) (message : option string) : string :=
  match message with
  | Some m => m
  | None => match responses code with
            | Some (phrase, _) => phrase
            | None => EmptyString
            end
  end.

(** The status line of a response. *)
Definition status_line (code : Z) (reason : string) : string :=
  protocol_version ++ " " ++ str_of_Z code ++ " " ++ reason ++ CRLF.

(** The line the logging hook prints for a message. *)
Definition log_line (st : handler) (message : string) : string :=
  "[HTTP] " ++ client_address st ++ " - " ++ message.

(** The message [log_request] formats. *)
Definition request_summary (st : handler) (code : Z) : string :=
  DQUOTE ++ requestline st ++ DQUOTE ++ " " ++ str_of_Z code ++ " " ++ "-".

(** The request is answered with a status line and headers: its version
    is not HTTP/0.9. *)
Definition with_headers (st : handler) : Prop :=
  String.eqb (request_version st) "HTTP/0.9" = false.

(** The page [send_error] sends. *)
Definition error_body (code : Z) (message explain : option string) : string :=
  let '(shortmsg, longmsg) :=
    match responses code with
    | Some r => r
    | None => ("???", "???")
    end in
  utf8_encode
    (error_message_format code
       (html_escape (match message with Some m => m | None => shortmsg end))
       (html_escape (match explain with Some x => x | None => longmsg end))).

(** The reason phrase [send_error] puts in the status line. *)
Definition error_reason (code : Z) (message : option string) : string :=
  match message with
  | Some m => m
  | None => match responses code with
            | Some (shortmsg, _) => shortmsg
            | None => "???"
            end
  end.




(** The words of the request line. *)
Definition request_words (req : request) : list string :=
  split_ws (rstrip_crlf (raw_requestline req)).

(** The path [parse_request] stores for the path given on the request
    line. *)
Definition stored_path (given : string) : string :=
  if startswith "//" given then "/" ++ lstrip_char "/" given else given.

(** The handler has accepted the request line: command, path and
    version are stored and nothing is written yet. *)
Definition parsed (c p v : string) (st st1 : handler) : Prop :=
  command st1 = Some c
  /\ path st1 = stored_path p
  /\ request_version st1 = v
  /\ wfile st1 = wfile st
  /\ headers_buffer st1 = headers_buffer st
  /\ directory st1 = directory st.

(** A version the server accepts: [HTTP/a.b] below 2.0. *)
Definition acceptable (version : string) : Prop :=
  exists (base : string) (vn : Z * Z),
    parse_version version = Some (base, vn) /\ pair_ge vn (2, 0) = false.




(** A line of the log the script's [log_message] prints for a client. *)
Definition tagged (client line : string) : Prop :=
  exists message : string, line = "[HTTP] " ++ client ++ " - " ++ message.

(** What every method of the handler keeps: the client address and
    standard error are untouched, a connection marked to be closed
    stays so, and standard output only grows, by tagged log lines. *)
Definition logs_only (st st' : handler) : Prop :=
  client_address st' = client_address st
  /\ stderr st' = stderr st
  /\ (close_connection st = true -> close_connection st' = true)
  /\ exists lines : list string,
       stdout st' = (stdout st ++ lines)%list
       /\ Forall (tagged (client_address st)) lines.

Definition keeps {A : Type} (m : H A) : Prop :=
  forall st : handler, logs_only st (snd (m st)).

(** What [parse_request] leaves of a request it accepts: beside what
    [parsed] says, the request line as it will be logged, the header
    fields, and the log as it was. *)
Definition accepted (c p v line : string) (fields : list (string * string))
  (st st1 : handler) : Prop :=
  parsed c p v st st1
  /\ requestline st1 = line
  /\ headers st1 = fields
  /\ client_address st1 = client_address st
  /\ stdout st1 = stdout st.


(** The line logged for a request answered with [code]. *)
Definition access_line (client line : string) (code : Z) : string :=
  "[HTTP] " ++ client ++ " - "
  ++ DQUOTE ++ line ++ DQUOTE ++ " " ++ str_of_Z code ++ " -".

(** A statement that prints nothing. *)
Definition silent {A : Type} (m : H A) : Prop :=
  forall st : handler,
    stdout (snd (m st)) = stdout st
    /\ client_address (snd (m st)) = client_address st
    /\ requestline (snd (m st)) = requestline st.

(** The line [send_error] logs before the access line. *)
Definition error_line (client : string) (code : Z) (reason : string)
  : string :=
  "[HTTP] " ++ client ++ " - "
  ++ "code " ++ str_of_Z code ++ ", message " ++ reason.

End HandlerSpec.

(** * Properties *)

(** ** Running statements *)

Section EffFacts.
Context {S A B : Type}.

Lemma bind_ret (m : Eff S A) (k : A -> Eff S B) (s s' : S) (a : A) :
  m s = (Ret a, s') -> bind m k s = k a s'.
Proof. intros E. unfold bind. rewrite E. reflexivity. Qed.

Lemma bind_raise (m : Eff S A) (k : A -> Eff S B) (s s' : S) (e : exn) :
  m s = (Raise e, s') -> bind m k s = (Raise e, s').
Proof. intros E. unfold bind. rewrite E. reflexivity. Qed.

End EffFacts.

(** ** Strings *)

Lemma append_nil_r (s : string) : s ++ EmptyString = s.
Proof. induction s as [| c r IH]; cbn; [reflexivity | now rewrite IH]. Qed.

Lemma append_assoc (a b c : string) : (a ++ b) ++ c = a ++ b ++ c.
Proof. induction a as [| x r IH]; cbn; [reflexivity | now rewrite IH]. Qed.

Lemma length_append (a b : string) :
  String.length (a ++ b) = (String.length a + String.length b)%nat.
Proof. induction a as [| x r IH]; cbn; [reflexivity | now rewrite IH]. Qed.

(** ** The library functions on sample arguments

    The values below are the ones Python 3.11 returns. *)

Example normpath_samples :
  map PosixPath.normpath
    ["/a/../../b/./c//"; "a/../.."; "//a"; "///a"; EmptyString; "/..";
     "a//b/"; "./a"; "//"; "/a/b/../../../c"]
  = ["/b/c"; ".."; "//a"; "/a"; "."; "/"; "a/b"; "a"; "//"; "/c"].
Proof. vm_compute. reflexivity. Qed.

Example dirname_samples :
  map PosixPath.dirname
    ["/opt/druid/serve-sample-data.py"; "serve-sample-data.py"; "//a";
     "///a"; "a//b/"; "./a"; "/a/b/../../../c"]
  = ["/opt/druid"; EmptyString; "//"; "///"; "a//b"; "."; "/a/b/../../.."].
Proof. vm_compute. reflexivity. Qed.

Example py_int_samples :
  map PyStr.py_int
    ["8888"; " 12 "; "abc"; "1_000"; "-5"; EmptyString; "+"; "1__0"; "0";
     "_1"; "1_"; "+ 5"; "0012"; "70000"; "12" ++ PyStr.LF;
     PyStr.chr 28 ++ "1"]
  = [Some 8888; Some 12; None; Some 1000; Some (-5); None; None; None;
     Some 0; None; None; None; Some 12; Some 70000; Some 12; None].
Proof. vm_compute. reflexivity. Qed.

Example split_samples :
  PyStr.split_ws ("GET  /a.json" ++ PyStr.chr 9 ++ "HTTP/1.1 ")
  = ["GET"; "/a.json"; "HTTP/1.1"]
  /\ PyStr.split_ws ("a " ++ PyStr.chr 28 ++ " b" ++ PyStr.chr 160 ++ "c"
                     ++ PyStr.chr 133 ++ "d")
     = ["a"; "b"; "c"; "d"]
  /\ PyStr.split_char "/" "/a//b/"
     = [EmptyString; "a"; EmptyString; "b"; EmptyString]
  /\ PyStr.rstrip (" x/ " ++ PyStr.chr 31) = " x/"
  /\ PyStr.rstrip_crlf ("GET / HTTP/1.0" ++ PyStr.CRLF) = "GET / HTTP/1.0".
Proof. repeat split; vm_compute; reflexivity. Qed.

Example parse_version_samples :
  map Handler.parse_version
    ["HTTP/1.1"; "HTTP/1.0"; "HTTP/0.9"; "HTTP/2.0"; "HTTP/+1.1"; "HTTP/x";
     "HTTP/1"; "HTTP/1.1.1"; "http/1.1"; "FOO"]
  = [Some ("1.1", (1, 1)); Some ("1.0", (1, 0)); Some ("0.9", (0, 9));
     Some ("2.0", (2, 0)); Some ("+1.1", (1, 1)); None; None; None; None;
     None].
Proof. vm_compute. reflexivity. Qed.

(** ** The server bootstrap *)

Module BootstrapFacts.
Import PyStr Bootstrap BootstrapSpec.

#[local] Arguments OS.stat : simpl never.
#[local] Arguments sample_data_path : simpl never.
#[local] Arguments PosixPath.abspath : simpl never.
#[local] Arguments str_of_Z : simpl never.
#[local] Arguments String.append : simpl never.
#[local] Arguments rule : simpl never.

Lemma port_from_command_line_ok (W : world) (p : Z) (s : proc) :
  port_argument W p -> port_from_command_line W s = (Ret p, s).
Proof.
  intros [[Hlen ->] | [Hlen Hint]]; unfold port_from_command_line.
  - destruct (Z.ltb_spec 1 (Z.of_nat (List.length (argv W))));
      [lia | reflexivity].
  - destruct (Z.ltb_spec 1 (Z.of_nat (List.length (argv W)))); [| lia].
    unfold try_except, int_of_arg. rewrite Hint. reflexivity.
Qed.

Lemma port_from_command_line_invalid (W : world) (s : proc) :
  (1 < List.length (argv W))%nat ->
  py_int (nth 1 (argv W) EmptyString) = None ->
  port_from_command_line W s =
    (Raise (SystemExit 1),
     {| cwd := cwd s;
        stdout := (stdout s ++ ["Error: Invalid port number '"
                               ++ nth 1 (argv W) EmptyString ++ "'"])
                  ++ ["Usage: " ++ nth 0 (argv W) EmptyString ++ " [port]"];
        stderr := stderr s; actions := actions s |}).
Proof.
  intros Hlen Hint. unfold port_from_command_line.
  destruct (Z.ltb_spec 1 (Z.of_nat (List.length (argv W)))); [| lia].
  unfold try_except, int_of_arg. rewrite Hint. reflexivity.
Qed.

(** Either the command line gives a port, or the argument is not an
    integer. *)
Lemma port_argument_cases (W : world) :
  (exists p, port_argument W p)
  \/ ((1 < List.length (argv W))%nat
      /\ py_int (nth 1 (argv W) EmptyString) = None).
Proof.
  destruct (Nat.le_gt_cases (List.length (argv W)) 1) as [Hle | Hgt].
  - left. exists DEFAULT_PORT. left. split; [exact Hle | reflexivity].
  - destruct (py_int (nth 1 (argv W) EmptyString)) as [p |] eqn:E.
    + left. exists p. right. split; assumption.
    + right. split; [assumption | reflexivity].
Qed.

Lemma script_invalid_port (W : world) :
  (1 < List.length (argv W))%nat ->
  py_int (nth 1 (argv W) EmptyString) = None ->
  script W =
    {| exit_status := Some 1;
       final :=
         {| cwd := start_cwd W;
            stdout := ["Error: Invalid port number '"
                       ++ nth 1 (argv W) EmptyString ++ "'";
                       "Usage: " ++ nth 0 (argv W) EmptyString ++ " [port]"];
            stderr := []; actions := [] |} |}.
Proof.
  intros Hlen Hint. unfold script, main.
  rewrite (bind_raise _ _ _ _ _
             (port_from_command_line_invalid W (initial W) Hlen Hint)).
  reflexivity.
Qed.

Lemma script_missing_directory (W : world) (p : Z) :
  port_argument W p ->
  OS.path_exists (fs W) (start_cwd W) (sample_data_path W) = false ->
  script W =
    {| exit_status := Some 1;
       final :=
         {| cwd := start_cwd W;
            stdout := ["Error: Sample data directory not found: "
                       ++ sample_data_path W];
            stderr := []; actions := [] |} |}.
Proof.
  intros Hp Hex. unfold script, main.
  rewrite (bind_ret _ _ _ _ _ (port_from_command_line_ok W p _ Hp)).
  unfold bind at 1. cbn [get initial cwd]. rewrite Hex. reflexivity.
Qed.

Lemma script_directory_is_file (W : world) (p : Z) (c : string) (m : Z) :
  port_argument W p ->
  OS.stat (fs W) (start_cwd W) (sample_data_path W) = Some (OS.File c m) ->
  script W =
    {| exit_status := Some 1;
       final := {| cwd := start_cwd W; stdout := [];
                   stderr := [Traceback NotADirectoryError];
                   actions := [] |} |}.
Proof.
  intros Hp Hst. unfold script, main.
  rewrite (bind_ret _ _ _ _ _ (port_from_command_line_ok W p _ Hp)).
  unfold bind at 1. cbn [get initial cwd].
  unfold OS.path_exists. rewrite Hst. cbn [negb].
  assert (E : os_chdir W (sample_data_path W) (initial W)
              = (Raise NotADirectoryError, initial W)).
  { unfold os_chdir, bind, get. cbn [initial cwd]. rewrite Hst. reflexivity. }
  rewrite (bind_raise _ _ _ _ _ E). reflexivity.
Qed.

(** No action at all is performed unless the directory check passed. *)
Lemma actions_need_directory (W : world) (a : action) :
  In a (actions (final (script W))) ->
  OS.path_exists (fs W) (start_cwd W) (sample_data_path W) = true.
Proof.
  intros Hin.
  destruct (port_argument_cases W) as [[p Hp] | [Hlen Hint]].
  - destruct (OS.path_exists (fs W) (start_cwd W) (sample_data_path W))
      eqn:Hex; [reflexivity |].
    rewrite (script_missing_directory W p Hp Hex) in Hin. destruct Hin.
  - rewrite (script_invalid_port W Hlen Hint) in Hin. destruct Hin.
Qed.

(** *** [sorted] sorts *)

Lemma insert_perm (x : string) (l : list string) :
  Permutation (insert x l) (x :: l).
Proof.
  induction l as [| y r IH]; cbn [insert].
  - apply Permutation_refl.
  - destruct (String.leb x y).
    + apply Permutation_refl.
    + eapply perm_trans; [apply perm_skip, IH | apply perm_swap].
Qed.

Lemma sorted_perm (l : list string) : Permutation (sorted l) l.
Proof.
  induction l as [| x r IH]; cbn [sorted].
  - apply perm_nil.
  - eapply perm_trans; [apply insert_perm | apply perm_skip, IH].
Qed.

Lemma insert_hd (x a : string) (l : list string) :
  name_le a x -> HdRel name_le a l -> HdRel name_le a (insert x l).
Proof.
  intros Hax Hal. destruct l as [| y r]; cbn [insert].
  - constructor. exact Hax.
  - destruct (String.leb x y); constructor.
    + exact Hax.
    + inversion Hal; assumption.
Qed.

Lemma insert_sorted (x : string) (l : list string) :
  Sorted name_le l -> Sorted name_le (insert x l).
Proof.
  induction l as [| y r IH]; intros Hs; cbn [insert].
  - repeat constructor.
  - destruct (String.leb x y) eqn:E.
    + constructor; [exact Hs | constructor; exact E].
    + inversion Hs as [| ? ? Hr Hhd]; subst.
      constructor; [apply IH, Hr |].
      apply insert_hd; [| exact Hhd].
      destruct (String.leb_total x y) as [H | H]; [congruence | exact H].
Qed.

Lemma sorted_Sorted (l : list string) : Sorted name_le (sorted l).
Proof.
  induction l as [| x r IH]; cbn [sorted].
  - constructor.
  - apply insert_sorted, IH.
Qed.

(** *** The banner *)

Lemma banner_loop (W : world) (port : Z) (names : list string) :
  forall s : proc,
    Forall (fun f => OS.isfile (fs W) (cwd s) f = true) names ->
    for_each names
      (fun f => bind (os_getsize W f)
                  (fun file_size => print (file_line port f file_size))) s
    = (Ret tt,
       {| cwd := cwd s;
          stdout := stdout s
                    ++ map (fun f => file_line port f (size_in W (cwd s) f))
                         names;
          stderr := stderr s; actions := actions s |}).
Proof.
  induction names as [| f r IH]; intros s Hall; cbn [for_each map].
  - unfold ret. rewrite app_nil_r. destruct s; reflexivity.
  - inversion Hall as [| ? ? Hf Hr]; subst.
    unfold OS.isfile in Hf.
    destruct (OS.stat (fs W) (cwd s) f) as [[c m | es sz] |] eqn:Hst;
      try discriminate.
    assert (Hsize : OS.getsize (fs W) (cwd s) f = Some (len c))
      by (unfold OS.getsize; rewrite Hst; reflexivity).
    unfold bind at 1. unfold bind at 1. unfold os_getsize, bind, get.
    rewrite Hsize. cbn [ret print modify].
    rewrite IH by exact Hr. cbn [cwd stdout stderr actions].
    unfold size_in at 2. rewrite Hsize.
    rewrite <- app_assoc. reflexivity.
Qed.

Lemma listed_isfile (W : world) (entries : list string) :
  Forall (fun f => OS.isfile (fs W) (served_root W) f = true)
    (listed W entries).
Proof.
  unfold listed.
  eapply Permutation_Forall; [apply Permutation_sym, sorted_perm |].
  apply Forall_forall. intros f Hf. apply filter_In in Hf. apply Hf.
Qed.

Lemma main_serving (W : world) (p : Z) (es entries : list string) (sz : Z) :
  port_argument W p ->
  OS.stat (fs W) (start_cwd W) (sample_data_path W) = Some (OS.Dir es sz) ->
  OS.listdir (fs W) (served_root W) "." = Some entries ->
  1 <= p <= 65535 ->
  port_free W p = true ->
  main W (initial W) =
    ((if interrupted W then Raise (SystemExit 0) else Blocked),
     {| cwd := served_root W;
        stdout :=
          banner_head p (sample_data_path W)
            (List.length (filter (OS.isfile (fs W) (served_root W)) entries))
          ++ map (fun f => file_line p f (size_in W (served_root W) f))
               (listed W entries)
          ++ banner_tail p
          ++ (if interrupted W
              then [LF ++ LF ++ "🛑 Server stopped by user"] else []);
        stderr := [];
        actions :=
          [Chdir (sample_data_path W); SocketOpen; SocketBind "0.0.0.0" p;
           SocketListen p; ServeForever]
          ++ (if interrupted W then [Shutdown] else []) |}).
Proof.
  intros Hp Hst Hls Hrange Hfree. unfold main.
  rewrite (bind_ret _ _ _ _ _ (port_from_command_line_ok W p _ Hp)).
  unfold bind at 1. cbn [get initial cwd].
  unfold OS.path_exists. rewrite Hst. cbn [negb].
  assert (Echdir : os_chdir W (sample_data_path W) (initial W)
            = (Ret tt, {| cwd := served_root W; stdout := []; stderr := [];
                          actions := [Chdir (sample_data_path W)] |})).
  { unfold os_chdir, bind, get. cbn [initial cwd]. rewrite Hst. reflexivity. }
  rewrite (bind_ret _ _ _ _ _ Echdir).
  match goal with |- bind _ _ ?s = _ =>
    assert (Els : os_listdir W "." s = (Ret entries, s))
      by (unfold os_listdir, bind, get; cbn [cwd]; rewrite Hls; reflexivity)
  end.
  rewrite (bind_ret _ _ _ _ _ Els).
  unfold bind at 1. cbn [get cwd].
  match goal with |- bind _ _ ?s = _ =>
    assert (Esrv : HTTPServer W "0.0.0.0" p s
              = (Ret p, {| cwd := served_root W; stdout := []; stderr := [];
                           actions := [Chdir (sample_data_path W); SocketOpen;
                                       SocketBind "0.0.0.0" p;
                                       SocketListen p] |}))
  end.
  { unfold HTTPServer, socket_bind, try_except, bind, act, modify.
    cbn [cwd stdout stderr actions app].
    destruct (Z.ltb_spec p 0); [lia |].
    destruct (Z.ltb_spec 65535 p); [lia |].
    destruct (Z.eqb_spec p 0); [lia |].
    cbn [orb]. rewrite Hfree. reflexivity. }
  rewrite (bind_ret _ _ _ _ _ Esrv).
  do 8 (unfold bind at 1; cbn [print modify cwd stdout stderr actions app]).
  match goal with |- bind (for_each ?l _) _ ?s = _ =>
    rewrite (bind_ret _ _ _ _ _
               (banner_loop W p l s (listed_isfile W entries)))
  end.
  do 8 (unfold bind at 1; cbn [print modify cwd stdout stderr actions app]).
  unfold banner_head, banner_tail, listed.
  unfold try_except, serve_forever, bind, act, sys_exit, raise, print.
  cbn [modify cwd stdout stderr actions].
  destruct (interrupted W); cbn [modify cwd stdout stderr actions app];
    repeat rewrite <- app_assoc; cbn [app]; try rewrite app_nil_r;
    reflexivity.
Qed.

Lemma script_serving (W : world) (p : Z) (es entries : list string) (sz : Z) :
  port_argument W p ->
  OS.stat (fs W) (start_cwd W) (sample_data_path W) = Some (OS.Dir es sz) ->
  OS.listdir (fs W) (served_root W) "." = Some entries ->
  1 <= p <= 65535 ->
  port_free W p = true ->
  exit_status (script W) = (if interrupted W then Some 0 else None)
  /\ final (script W) = snd (main W (initial W)).
Proof.
  intros Hp Hst Hls Hrange Hfree. unfold script.
  rewrite (main_serving W p es entries sz Hp Hst Hls Hrange Hfree).
  destruct (interrupted W); split; reflexivity.
Qed.




(** C6: when the directory demo/sample-data next to the script does not
    exist, the process prints an error and exits with status 1 without
    any action, so without opening or binding a socket; and whenever an
    action is performed at all, the directory check has succeeded. *)
Theorem missing_directory_exits_before_bind (W : world) :
  (OS.path_exists (fs W) (start_cwd W) (sample_data_path W) = false ->
   exit_status (script W) = Some 1
   /\ actions (final (script W)) = []
   /\ exists msg more,
        stdout (final (script W)) = ("Error: " ++ msg) :: more)
  /\ (forall a : action,
        In a (actions (final (script W))) ->
        OS.path_exists (fs W) (start_cwd W) (sample_data_path W) = true)
  /\ sample_data_path W =
       PosixPath.join
         (PosixPath.dirname
            (PosixPath.abspath (start_cwd W) (script_file W)))
         "demo/sample-data".
Proof.
  split; [| split; [apply actions_need_directory | reflexivity]].
  intros Hex.
  destruct (port_argument_cases W) as [[p Hp] | [Hlen Hint]].
  - rewrite (script_missing_directory W p Hp Hex).
    repeat split.
    exists ("Sample data directory not found: " ++ sample_data_path W), [].
    reflexivity.
  - rewrite (script_invalid_port W Hlen Hint).
    repeat split.
    exists ("Invalid port number '" ++ nth 1 (argv W) EmptyString ++ "'").
    eexists. reflexivity.
Qed.

Lemma missing_directory_exits_before_bind_witness :
  exit_status (script (Demo.world_with Demo.empty_fs ["9000"])) = Some 1
  /\ actions (final (script (Demo.world_with Demo.empty_fs ["9000"]))) = []
  /\ exists msg more,
       stdout (final (script (Demo.world_with Demo.empty_fs ["9000"])))
       = ("Error: " ++ msg) :: more.
Proof.
  apply (proj1 (missing_directory_exits_before_bind
                  (Demo.world_with Demo.empty_fs ["9000"]))).
  reflexivity.
Defined.

(** C8: the check before [os.chdir] is [os.path.exists]; with a regular
    file at the path it passes, [os.chdir] raises [NotADirectoryError],
    nobody catches it, and the process ends with a traceback on standard
    error and status 1, having printed nothing and performed no
    action. *)
Theorem file_at_directory_path_raises
  (W : world) (p : Z) (c : string) (m : Z) :
  port_argument W p ->
  OS.stat (fs W) (start_cwd W) (sample_data_path W) = Some (OS.File c m) ->
  OS.path_exists (fs W) (start_cwd W) (sample_data_path W) = true
  /\ script W =
       {| exit_status := Some 1;
          final := {| cwd := start_cwd W; stdout := [];
                      stderr := [Traceback NotADirectoryError];
                      actions := [] |} |}.
Proof.
  intros Hp Hst. split.
  - unfold OS.path_exists. rewrite Hst. reflexivity.
  - exact (script_directory_is_file W p c m Hp Hst).
Qed.

Lemma file_at_directory_path_raises_witness :
  OS.path_exists Demo.file_fs "/home/operator" "/opt/druid/demo/sample-data"
  = true
  /\ script (Demo.world_with Demo.file_fs []) =
       {| exit_status := Some 1;
          final := {| cwd := "/home/operator"; stdout := [];
                      stderr := [Traceback NotADirectoryError];
                      actions := [] |} |}.
Proof.
  apply (file_at_directory_path_raises (Demo.world_with Demo.file_fs [])
           8888 "not a directory" 1700000000).
  - left. split; [cbn; lia | reflexivity].
  - reflexivity.
Defined.

Lemma listed_described (W : world) (p : Z) (names : list string) :
  Forall (fun f => OS.isfile (fs W) (served_root W) f = true) names ->
  Forall2 (describes W p) names
    (map (fun f => file_line p f (size_in W (served_root W) f)) names).
Proof.
  induction 1 as [| f r Hf Hr IH]; cbn [map]; constructor; [| exact IH].
  unfold OS.isfile in Hf.
  destruct (OS.stat (fs W) (served_root W) f) as [[c m | es sz] |] eqn:Hst;
    try discriminate.
  exists c, m. split; [exact Hst |].
  unfold size_in, OS.getsize. rewrite Hst. reflexivity.
Qed.

(** C7: once the server is started on a port in 1..65535, the lines of
    the banner that begin with the list mark are, in order, one per
    regular file directly inside the serving root and for no other
    name, sorted by name, each giving the URL
    http://localhost:<port>/<name> and the size of the file in bytes,
    where <port> is the port the server listens on. *)
Theorem banner_lists_regular_files
  (W : world) (p : Z) (es entries : list string) (sz : Z) :
  port_argument W p ->
  OS.stat (fs W) (start_cwd W) (sample_data_path W) = Some (OS.Dir es sz) ->
  OS.listdir (fs W) (served_root W) "." = Some entries ->
  1 <= p <= 65535 ->
  port_free W p = true ->
  exists (names lines head tail : list string),
    stdout (final (script W)) = (head ++ lines ++ tail)%list
    /\ Forall (fun l => startswith "   - " l = false) (head ++ tail)%list
    /\ Sorted name_le names
    /\ Permutation names
         (filter (OS.isfile (fs W) (served_root W)) entries)
    /\ Forall2 (describes W p) names lines
    /\ In (SocketBind "0.0.0.0" p) (actions (final (script W)))
    /\ In (SocketListen p) (actions (final (script W))).
Proof.
  intros Hp Hst Hls Hrange Hfree.
  destruct (script_serving W p es entries sz Hp Hst Hls Hrange Hfree)
    as [_ Hfinal].
  rewrite Hfinal, (main_serving W p es entries sz Hp Hst Hls Hrange Hfree).
  cbn [snd stdout actions].
  exists (listed W entries).
  exists (map (fun f => file_line p f (size_in W (served_root W) f))
            (listed W entries)).
  exists (banner_head p (sample_data_path W)
            (List.length
               (filter (OS.isfile (fs W) (served_root W)) entries))).
  exists (banner_tail p
          ++ (if interrupted W
              then [(LF ++ LF ++ "🛑 Server stopped by user")%string]
              else []))%list.
  split; [reflexivity |]. split.
  { unfold banner_head, banner_tail.
    destruct (interrupted W); repeat constructor. }
  split; [apply sorted_Sorted |].
  split; [apply sorted_perm |].
  split; [apply listed_described, listed_isfile |].
  split; cbn; tauto.
Qed.

Lemma banner_lists_regular_files_witness :
  exists (names lines head tail : list string),
    stdout (final (script (Demo.world_with Demo.sample_fs ["9000"])))
    = (head ++ lines ++ tail)%list
    /\ Forall (fun l => startswith "   - " l = false) (head ++ tail)%list
    /\ Sorted name_le names
    /\ Permutation names
         (filter (OS.isfile Demo.sample_fs "/opt/druid/demo/sample-data")
            ["b.csv"; "sub"; "a.json"])
    /\ Forall2 (describes (Demo.world_with Demo.sample_fs ["9000"]) 9000)
         names lines
    /\ In (SocketBind "0.0.0.0" 9000)
         (actions (final (script (Demo.world_with Demo.sample_fs ["9000"]))))
    /\ In (SocketListen 9000)
         (actions (final (script (Demo.world_with Demo.sample_fs ["9000"])))).
Proof.
  apply (banner_lists_regular_files (Demo.world_with Demo.sample_fs ["9000"])
           9000 ["b.csv"; "sub"; "a.json"] ["b.csv"; "sub"; "a.json"] 4096).
  - right. split; [cbn; lia | reflexivity].
  - reflexivity.
  - reflexivity.
  - lia.
  - reflexivity.
Defined.

(** The scenario of the spec: a.json of 10 bytes and b.csv of 20 bytes,
    port 9000. *)
Example banner_of_sample_directory :
  stdout (final (script (Demo.world_with Demo.sample_fs ["9000"]))) =
    (banner_head 9000 "/opt/druid/demo/sample-data" 2
     ++ ["   - http://localhost:9000/a.json (10 bytes)";
         "   - http://localhost:9000/b.csv (20 bytes)"]
     ++ banner_tail 9000)%list.
Proof. vm_compute. reflexivity. Qed.

End BootstrapFacts.

(** ** The request handler *)

Module HandlerFacts.
Import PyStr Handler HandlerSpec.

#[local] Arguments String.append : simpl never.
#[local] Arguments str_of_Z : simpl never.
#[local] Arguments utf8_encode : simpl never.
#[local] Arguments html_escape : simpl never.
#[local] Arguments error_message_format : simpl never.
#[local] Arguments String.concat : simpl never.
#[local] Arguments len : simpl never.

Section Facts.
Context {RT : Runtime}.
Variable fs : OS.filesystem.
Variable req : request.

#[local] Abbreviation request_words := (HandlerSpec.request_words req).

Lemma log_message_ok (st : handler) (format message : string)
  (args : list pyval) :
  py_format format args = inr message ->
  log_message format args st =
    (Ret tt, set_stdout (stdout st ++ [log_line st message]) st).
Proof.
  intros Hfmt. unfold log_message, address_string, bind, get, ret.
  rewrite Hfmt. reflexivity.
Qed.

Lemma log_message_raises (st : handler) (format : string)
  (args : list pyval) (e : exn) :
  py_format format args = inl e ->
  log_message format args st = (Raise e, st).
Proof.
  intros Hfmt. unfold log_message, address_string, bind, get, ret.
  rewrite Hfmt. reflexivity.
Qed.

Lemma log_request_eq (st : handler) (code : Z) :
  log_request code st =
    (Ret tt,
     set_stdout (stdout st ++ [log_line st (request_summary st code)]) st).
Proof.
  unfold log_request, bind, get. apply log_message_ok. reflexivity.
Qed.

Lemma send_response_only_live (st : handler) (code : Z)
  (message : option string) :
  with_headers st ->
  send_response_only code message st =
    (Ret tt,
     set_headers_buffer
       (Some (list_append (buffered st)
                (status_line code (reason_phrase code message)))) st).
Proof.
  intros E. unfold send_response_only, bind, get. rewrite E. reflexivity.
Qed.

Lemma send_header_live (st : handler) (keyword value : string) :
  with_headers st ->
  String.eqb (lower keyword) "connection" = false ->
  send_header keyword value st =
    (Ret tt,
     set_headers_buffer
       (Some (list_append (buffered st) (header_line keyword value))) st).
Proof.
  intros E K. unfold send_header, bind, get. rewrite E. cbn [negb modify].
  rewrite K. reflexivity.
Qed.

Lemma send_header_connection_close (st : handler) :
  with_headers st ->
  send_header "Connection" "close" st =
    (Ret tt,
     set_close_connection true
       (set_headers_buffer
          (Some (list_append (buffered st)
                   (header_line "Connection" "close"))) st)).
Proof.
  intros E. unfold send_header, bind, get. rewrite E. reflexivity.
Qed.

Lemma end_headers_live (st : handler) :
  with_headers st ->
  end_headers st =
    (Ret tt,
     set_headers_buffer (Some [])
       (set_wfile (wfile st ++ String.concat EmptyString
                                 (buffered st
                                  ++ [header_line "Access-Control-Allow-Origin" "*";
                                      header_line "Access-Control-Allow-Methods" "GET, OPTIONS";
                                      header_line "Access-Control-Allow-Headers" "Content-Type";
                                      CRLF])%list) st)).
Proof.
  intros E. unfold end_headers.
  do 3 (erewrite bind_ret
          by (apply send_header_live; [exact E | reflexivity])).
  unfold base_end_headers, bind, get.
  cbn [request_version set_headers_buffer]. rewrite E.
  cbn [negb headers_buffer modify flush_headers]. unfold flush_headers, bind, get.
  cbn [headers_buffer set_headers_buffer wfile_write modify].
  unfold wfile_write, modify, buffered, list_append.
  cbn [headers_buffer wfile set_headers_buffer set_wfile].
  repeat rewrite <- app_assoc. reflexivity.
Qed.

Lemma send_header_http09 (st : handler) (keyword value : string) :
  String.eqb (request_version st) "HTTP/0.9" = true ->
  String.eqb (lower keyword) "connection" = false ->
  send_header keyword value st = (Ret tt, st).
Proof.
  intros E K. unfold send_header, bind, get. rewrite E. cbn [negb ret].
  rewrite K. reflexivity.
Qed.


Lemma end_headers_http09 (st : handler) :
  String.eqb (request_version st) "HTTP/0.9" = true ->
  end_headers st = (Ret tt, st).
Proof.
  intros E. unfold end_headers.
  do 3 (erewrite bind_ret
          by (apply send_header_http09; [exact E | reflexivity])).
  unfold base_end_headers, bind, get. rewrite E. reflexivity.
Qed.

Lemma concat_empty_app (l1 l2 : list string) :
  String.concat EmptyString (l1 ++ l2) =
    String.concat EmptyString l1 ++ String.concat EmptyString l2.
Proof.
  induction l1 as [| x r IH]; [reflexivity |].
  cbn [app]. destruct r as [| y r'].
  - cbn [app]. destruct l2 as [| z l2'].
    + cbn. symmetry. apply append_nil_r.
    + reflexivity.
  - change (String.concat EmptyString (x :: (y :: r') ++ l2)%list)
      with (x ++ String.concat EmptyString ((y :: r') ++ l2)%list).
    rewrite IH.
    change (String.concat EmptyString (x :: y :: r'))
      with (x ++ String.concat EmptyString (y :: r')).
    symmetry. apply append_assoc.
Qed.

Lemma concat_empty_cons (x : string) (l : list string) :
  String.concat EmptyString (x :: l) = x ++ String.concat EmptyString l.
Proof.
  destruct l; [cbn; symmetry; apply append_nil_r | reflexivity].
Qed.

Lemma base_log_message_ok (st : handler) (format message : string)
  (args : list pyval) :
  py_format format args = inr message ->
  base_log_message format args st =
    (Ret tt,
     set_stderr
       (stderr st ++ client_address st ++ " - - [" ++ log_date_time_string
        ++ "] " ++ escape_control message ++ LF) st).
Proof.
  intros Hfmt. unfold base_log_message. rewrite Hfmt. reflexivity.
Qed.

(** C9: an invocation of the logging hook whose format matches its
    arguments makes one [print] call, with the line
    [[HTTP] <address> - <message>], and leaves standard error as it
    was, where the library's own hook, which the script replaces,
    writes to standard error instead; and the invocation the library
    makes for each response it sends, [log_request], is such an
    invocation, whatever the request line and the status. *)
Theorem log_message_prints_one_line (st : handler) :
  (forall (format message : string) (args : list pyval),
     py_format format args = inr message ->
     log_message format args st =
       (Ret tt,
        set_stdout
          (stdout st
           ++ ["[HTTP] " ++ client_address st ++ " - " ++ message])
          st)
     /\ stderr (snd (log_message format args st)) = stderr st
     /\ stdout (snd (base_log_message format args st)) = stdout st
     /\ stderr (snd (base_log_message format args st)) <> stderr st)
  /\ (forall code : Z,
        log_request code st =
          (Ret tt,
           set_stdout
             (stdout st
              ++ ["[HTTP] " ++ client_address st ++ " - "
                  ++ DQUOTE ++ requestline st ++ DQUOTE
                  ++ " " ++ str_of_Z code ++ " -"])
             st)).
Proof.
  split; [| intros code; apply log_request_eq].
  intros format message args Hfmt.
  rewrite (log_message_ok st format message args Hfmt).
  split; [reflexivity |]. split; [reflexivity |].
  rewrite (base_log_message_ok st format message args Hfmt).
  cbn [snd stdout stderr set_stderr]. split; [reflexivity |].
  intros Heq.
  apply (f_equal String.length) in Heq.
  repeat rewrite length_append in Heq.
  unfold LF, chr in Heq. cbn [String.length] in Heq.
  lia.
Qed.

Lemma base_end_headers_live (st : handler) (buffer : list string) :
  with_headers st ->
  headers_buffer st = Some buffer ->
  base_end_headers st =
    (Ret tt,
     set_headers_buffer (Some [])
       (set_wfile (wfile st ++ String.concat EmptyString buffer ++ CRLF) st)).
Proof.
  intros E Hb. unfold base_end_headers, bind, get. rewrite E, Hb.
  cbn [negb modify]. unfold flush_headers, bind, get.
  cbn [headers_buffer set_headers_buffer]. unfold wfile_write, modify.
  unfold list_append. rewrite concat_empty_app. reflexivity.
Qed.

(** C10 (as amended): for a response that has a status line and headers
    (request version other than HTTP/0.9) the override writes what was
    written before, then the status line and headers buffered so far,
    unchanged and in order, then exactly the three CORS headers, then
    the blank line the base implementation ends the headers with, and
    changes nothing else; the base implementation alone writes the same
    without the three headers.  For an HTTP/0.9 request it changes
    nothing at all. *)
Theorem end_headers_adds_cors_headers (st : handler) :
  (with_headers st ->
   end_headers st =
     (Ret tt,
      set_headers_buffer (Some [])
        (set_wfile
           (wfile st ++ String.concat EmptyString (buffered st)
            ++ ("Access-Control-Allow-Origin: *" ++ CRLF
                ++ "Access-Control-Allow-Methods: GET, OPTIONS" ++ CRLF
                ++ "Access-Control-Allow-Headers: Content-Type" ++ CRLF)
            ++ CRLF) st))
   /\ (headers_buffer st <> None ->
       base_end_headers st =
         (Ret tt,
          set_headers_buffer (Some [])
            (set_wfile
               (wfile st ++ String.concat EmptyString (buffered st) ++ CRLF)
               st))))
  /\ (String.eqb (request_version st) "HTTP/0.9" = true ->
      end_headers st = (Ret tt, st)).
Proof.
  split; [| apply end_headers_http09].
  intros E. split.
  - rewrite (end_headers_live st E). rewrite concat_empty_app. reflexivity.
  - intros Hb. unfold buffered.
    destruct (headers_buffer st) as [b |] eqn:Hbuf; [| congruence].
    rewrite <- Hbuf in *. apply base_end_headers_live; assumption.
Qed.

(** *** Responses with a header section *)

Lemma send_response_live (st : handler) (code : Z) (message : option string) :
  with_headers st ->
  send_response code message st =
    (Ret tt,
     set_headers_buffer
       (Some (buffered st
              ++ [status_line code (reason_phrase code message);
                  header_line "Server" version_string;
                  header_line "Date" (date_time_string None)])%list)
       (set_stdout (stdout st ++ [log_line st (request_summary st code)])
          st)).
Proof.
  intros E. unfold send_response.
  rewrite (bind_ret _ _ _ _ _ (log_request_eq st code)).
  erewrite bind_ret by (apply send_response_only_live; exact E).
  erewrite bind_ret by (apply send_header_live; [exact E | reflexivity]).
  rewrite send_header_live by (first [exact E | reflexivity]).
  unfold buffered, list_append.
  cbn [headers_buffer set_headers_buffer set_stdout].
  repeat rewrite <- app_assoc. reflexivity.
Qed.

Lemma error_body_nonempty (code : Z) (message explain : string) :
  String.eqb
    (utf8_encode (error_message_format code message explain)) EmptyString
  = false.
Proof. reflexivity. Qed.

Lemma send_error_live (st : handler) (code : Z)
  (message explain : option string) :
  with_headers st ->
  buffered st = [] ->
  (200 <=? code) && negb ((code =? 204) || (code =? 205) || (code =? 304))
  = true ->
  exists st',
    send_error code message explain st = (Ret tt, st')
    /\ request_version st' = request_version st
    /\ command st' = command st
    /\ headers_buffer st' = Some []
    /\ wfile st' =
         wfile st
         ++ status_line code (error_reason code message)
         ++ header_line "Server" version_string
         ++ header_line "Date" (date_time_string None)
         ++ header_line "Connection" "close"
         ++ header_line "Content-Type" error_content_type
         ++ header_line "Content-Length"
              (str_of_Z (len (error_body code message explain)))
         ++ cors_block ++ CRLF
         ++ (if match command st with
                | Some c => String.eqb c "HEAD"
                | None => false
                end
             then EmptyString else error_body code message explain).
Proof.
  intros E Hb Hcode. unfold send_error, error_body, error_reason.
  destruct (responses code) as [[shortmsg longmsg] |];
    [set (short := shortmsg); set (long := longmsg)
    | set (short := "???"); set (long := "???")].
  all: rewrite Hcode.
  all: set (msg := match message with Some m => m | None => short end).
  all: set (expl := match explain with Some x => x | None => long end).
  all: set (body := utf8_encode
                      (error_message_format code (html_escape msg)
                         (html_escape expl))).
  all: destruct (match command st with
                 | Some c => String.eqb c "HEAD"
                 | None => false
                 end) eqn:Hhead.
  all: eexists; split;
    [ unfold log_error;
      erewrite bind_ret by (apply log_message_ok; reflexivity);
      erewrite bind_ret by (apply send_response_live; exact E);
      erewrite bind_ret by (apply send_header_connection_close; exact E);
      erewrite bind_ret
        by (erewrite bind_ret
              by (apply send_header_live; [exact E | reflexivity]);
            apply send_header_live; [exact E | reflexivity]);
      erewrite bind_ret by (apply end_headers_live; exact E);
      unfold bind at 1, get;
      cbn [command set_headers_buffer set_wfile set_close_connection
             set_stdout];
      unfold body; rewrite error_body_nonempty; fold body;
      rewrite andb_true_r, Hhead; cbn [negb];
      unfold ret, wfile_write, modify; reflexivity
    | ].
  all: cbn [request_version command headers_buffer wfile set_headers_buffer
              set_wfile set_close_connection set_stdout].
  all: repeat split.
  all: unfold buffered, list_append in *;
    cbn [headers_buffer set_headers_buffer set_stdout set_close_connection
           set_wfile];
    rewrite Hb; cbn [app].
  all: unfold cors_block; repeat rewrite concat_empty_cons;
    cbn [String.concat];
    repeat rewrite append_assoc; repeat rewrite append_nil_r; reflexivity.
Qed.






Lemma open_rb_nul (st : handler) (path : string) :
  OS.has_nul path = true -> open_rb fs path st = (Raise ValueError, st).
Proof. intros Hn. unfold open_rb, bind, get. rewrite Hn. reflexivity. Qed.





(** *** Parsing the request *)


Lemma parse_request_version_ok (st : handler) (words : list string) :
  (3 <= List.length words)%nat ->
  acceptable (List.last words EmptyString) ->
  parse_request_version words st =
    (Ret true, set_request_version (List.last words EmptyString) st).
Proof.
  intros Hlen [base [vn [Hv Hlt]]]. unfold parse_request_version.
  destruct (Z.leb_spec 3 (Z.of_nat (List.length words))); [| lia].
  rewrite Hv, Hlt.
  replace (String.leb "HTTP/1.1" protocol_version) with false by reflexivity.
  rewrite andb_false_r. reflexivity.
Qed.


(** *** Serving the request *)



Lemma get_method_eq (c : string) :
  get_method fs ("do_" ++ c) =
    if String.eqb c "GET" then Some (do_GET fs)
    else if String.eqb c "HEAD" then Some (do_HEAD fs)
    else None.
Proof. reflexivity. Qed.



Lemma buffered_after (st st1 : handler) :
  headers_buffer st1 = headers_buffer st -> buffered st1 = buffered st.
Proof. intros Hb. unfold buffered. rewrite Hb. reflexivity. Qed.

Lemma words_of_empty_line :
  raw_requestline req = EmptyString -> request_words = [].
Proof. intros Hraw. unfold request_words. rewrite Hraw. reflexivity. Qed.


Lemma parse_request_headers_ok (st : handler) (c p : string)
  (fields : list (string * string)) :
  raw_headers req = Headers fields ->
  exists st1,
    parse_request_headers req c p st = (Ret true, st1)
    /\ parsed c p (request_version st) st st1.
Proof.
  intros Hh. unfold parse_request_headers.
  unfold bind at 1, modify. unfold bind at 1, modify. rewrite Hh.
  replace (String.leb "HTTP/1.1" protocol_version) with false by reflexivity.
  unfold bind, modify, get, ret. cbn beta iota.
  rewrite !andb_false_r. cbn [andb].
  destruct (String.eqb (lower _) "close");
    eexists; (split; [reflexivity | repeat split]).
Qed.

Lemma parse_request_ok (st : handler) (c p v : string)
  (fields : list (string * string)) :
  request_words = [c; p; v] ->
  acceptable v ->
  raw_headers req = Headers fields ->
  exists st1,
    parse_request req st = (Ret true, st1) /\ parsed c p v st st1.
Proof.
  intros Hw Hacc Hh. unfold parse_request.
  do 4 (unfold bind at 1, modify).
  fold request_words. rewrite Hw.
  set (st0 := set_requestline _ _).
  rewrite (bind_ret _ _ _ _ _
             (parse_request_version_ok st0 [c; p; v]
                (Nat.le_refl 3) Hacc)).
  cbn [negb List.last].
  destruct (parse_request_headers_ok (set_request_version v st0) c p fields
              Hh) as [st1 [Hrun Hp]].
  exists st1. split; [exact Hrun | exact Hp].
Qed.

(** A request with a command other than GET and HEAD, an acceptable
    version other than HTTP/0.9 and readable headers is answered 501
    with the page that says so. *)
Lemma unsupported_method (client dir c p v : string)
  (fields : list (string * string)) :
  request_words = [c; p; v] ->
  acceptable v ->
  String.eqb v "HTTP/0.9" = false ->
  raw_headers req = Headers fields ->
  len (raw_requestline req) <= 65536 ->
  String.eqb c "GET" = false ->
  String.eqb c "HEAD" = false ->
  fst (serve fs req client dir) = Ret tt
  /\ wfile (snd (serve fs req client dir)) =
       status_line 501 ("Unsupported method (" ++ py_repr c ++ ")")
       ++ header_line "Server" version_string
       ++ header_line "Date" (date_time_string None)
       ++ header_line "Connection" "close"
       ++ header_line "Content-Type" error_content_type
       ++ header_line "Content-Length"
            (str_of_Z
               (len (error_body 501
                       (Some ("Unsupported method (" ++ py_repr c ++ ")"))
                       None)))
       ++ cors_block ++ CRLF
       ++ error_body 501
            (Some ("Unsupported method (" ++ py_repr c ++ ")")) None.
Proof.
  intros Hw Hacc Hnot09 Hh Hshort HG HH.
  destruct (parse_request_ok (new_handler client dir) c p v fields Hw Hacc Hh)
    as [st1 [Hrun [Hc [_ [Hv [Hwf [Hbuf _]]]]]]].
  assert (E1 : with_headers st1) by (unfold with_headers; congruence).
  assert (Hb1 : buffered st1 = [])
    by (rewrite (buffered_after _ st1 Hbuf); reflexivity).
  destruct (send_error_live st1 501
              (Some ("Unsupported method (" ++ py_repr c ++ ")")) None
              E1 Hb1 eq_refl) as [st' [Hrun' [_ [_ [_ Hwfile]]]]].
  assert (Hserve : serve fs req client dir = (Ret tt, st')).
  { unfold serve, handle_one_request.
    destruct (Z.ltb_spec 65536 (len (raw_requestline req))); [lia |].
    destruct (String.eqb_spec (raw_requestline req) EmptyString)
      as [Hraw |_].
    { rewrite (words_of_empty_line Hraw) in Hw. discriminate. }
    rewrite (bind_ret _ _ _ _ _ Hrun). cbn [negb].
    unfold bind at 1, get. rewrite Hc, get_method_eq, HG, HH.
    exact Hrun'. }
  rewrite Hserve. cbn [fst snd]. split; [reflexivity |].
  rewrite Hwfile, Hwf, Hc, HH. reflexivity.
Qed.


(** C2: what the code does with an OPTIONS request that has an
    acceptable version and readable headers, whatever its path: it is
    answered 501 with the error page as body, the three CORS headers
    present. *)
Theorem options_request_answered_501 (client dir p v : string)
  (fields : list (string * string)) :
  request_words = ["OPTIONS"; p; v] ->
  acceptable v ->
  v <> "HTTP/0.9" ->
  raw_headers req = Headers fields ->
  len (raw_requestline req) <= 65536 ->
  fst (serve fs req client dir) = Ret tt
  /\ exists (others body : string),
       wfile (snd (serve fs req client dir)) =
         "HTTP/1.0 501 Unsupported method (" ++ py_repr "OPTIONS" ++ ")"
         ++ CRLF ++ others ++ cors_block ++ CRLF ++ body
       /\ body <> EmptyString.
Proof.
  intros Hw Hacc Hv Hh Hshort.
  apply String.eqb_neq in Hv.
  destruct (unsupported_method client dir "OPTIONS" p v fields
              Hw Hacc Hv Hh Hshort eq_refl eq_refl) as [Hr Hwf].
  split; [exact Hr |].
  exists (header_line "Server" version_string
          ++ header_line "Date" (date_time_string None)
          ++ header_line "Connection" "close"
          ++ header_line "Content-Type" error_content_type
          ++ header_line "Content-Length"
               (str_of_Z
                  (len (error_body 501
                          (Some ("Unsupported method ("
                                 ++ py_repr "OPTIONS" ++ ")")) None)))).
  exists (error_body 501
            (Some ("Unsupported method (" ++ py_repr "OPTIONS" ++ ")"))
            None).
  split.
  - rewrite Hwf. unfold status_line, protocol_version.
    change (str_of_Z 501) with "501".
    repeat rewrite append_assoc. reflexivity.
  - apply String.eqb_neq. apply error_body_nonempty.
Qed.

(** C3 (as amended): a request whose command is not GET, HEAD or
    OPTIONS, with an acceptable version other than HTTP/0.9 and
    readable headers, is answered with status 501 and the reason
    [Unsupported method (<command>)], the three CORS headers present. *)
Theorem unsupported_method_answered_501 (client dir c p v : string)
  (fields : list (string * string)) :
  request_words = [c; p; v] ->
  c <> "GET" -> c <> "HEAD" -> c <> "OPTIONS" ->
  acceptable v ->
  v <> "HTTP/0.9" ->
  raw_headers req = Headers fields ->
  len (raw_requestline req) <= 65536 ->
  fst (serve fs req client dir) = Ret tt
  /\ exists (others body : string),
       wfile (snd (serve fs req client dir)) =
         "HTTP/1.0 501 Unsupported method (" ++ py_repr c ++ ")"
         ++ CRLF ++ others ++ cors_block ++ CRLF ++ body.
Proof.
  intros Hw HG HH _ Hacc Hv Hh Hshort.
  apply String.eqb_neq in Hv, HG, HH.
  destruct (unsupported_method client dir c p v fields
              Hw Hacc Hv Hh Hshort HG HH) as [Hr Hwf].
  split; [exact Hr |].
  exists (header_line "Server" version_string
          ++ header_line "Date" (date_time_string None)
          ++ header_line "Connection" "close"
          ++ header_line "Content-Type" error_content_type
          ++ header_line "Content-Length"
               (str_of_Z
                  (len (error_body 501
                          (Some ("Unsupported method ("
                                 ++ py_repr c ++ ")")) None)))).
  exists (error_body 501
            (Some ("Unsupported method (" ++ py_repr c ++ ")")) None).
  rewrite Hwf. unfold status_line, protocol_version.
  change (str_of_Z 501) with "501".
  repeat rewrite append_assoc. reflexivity.
Qed.

(** *** Path translation *)







End Facts.


(** Paths that try to leave the root, in plain and in escaped form, and
    where they lead. *)
Example traversal_paths_translated :
  translate_path (RT := Demo.runtime) "/opt/druid/demo/sample-data"
    "/../../../etc/passwd"
  = "/opt/druid/demo/sample-data/etc/passwd"
  /\ translate_path (RT := Demo.runtime) "/opt/druid/demo/sample-data"
       "/%2e%2e/%2E%2E/etc/passwd"
     = "/opt/druid/demo/sample-data/etc/passwd"
  /\ translate_path (RT := Demo.runtime) "/opt/druid/demo/sample-data"
       "/sub/../../a.json?x=1"
     = "/opt/druid/demo/sample-data/a.json"
  /\ Demo.sample_fs "/etc/passwd" <> None
  /\ startswith "HTTP/1.0 404 "
       (wfile (snd (Demo.served "GET /%2e%2e/%2E%2E/etc/passwd HTTP/1.0")))
     = true.
Proof. repeat split; try (vm_compute; reflexivity). discriminate. Qed.



Lemma options_request_answered_501_witness :
  fst (Demo.served "OPTIONS /anything HTTP/1.1") = Ret tt
  /\ exists (others body : string),
       wfile (snd (Demo.served "OPTIONS /anything HTTP/1.1")) =
         "HTTP/1.0 501 Unsupported method ('OPTIONS')"
         ++ CRLF ++ others ++ cors_block ++ CRLF ++ body
       /\ body <> EmptyString.
Proof.
  apply (options_request_answered_501 (RT := Demo.runtime)
           Demo.sample_fs (Demo.request_line "OPTIONS /anything HTTP/1.1")
           "10.0.0.7" "/opt/druid/demo/sample-data"
           "/anything" "HTTP/1.1" []).
  - reflexivity.
  - exists "1.1", (1, 1). split; reflexivity.
  - discriminate.
  - reflexivity.
  - vm_compute. discriminate.
Defined.

Lemma unsupported_method_answered_501_witness :
  fst (Demo.served "POST /a.json HTTP/1.1") = Ret tt
  /\ exists (others body : string),
       wfile (snd (Demo.served "POST /a.json HTTP/1.1")) =
         "HTTP/1.0 501 Unsupported method ('POST')"
         ++ CRLF ++ others ++ cors_block ++ CRLF ++ body.
Proof.
  apply (unsupported_method_answered_501 (RT := Demo.runtime)
           Demo.sample_fs (Demo.request_line "POST /a.json HTTP/1.1")
           "10.0.0.7" "/opt/druid/demo/sample-data"
           "POST" "/a.json" "HTTP/1.1" []).
  - reflexivity.
  - discriminate.
  - discriminate.
  - discriminate.
  - exists "1.1", (1, 1). split; reflexivity.
  - discriminate.
  - reflexivity.
  - vm_compute. discriminate.
Defined.

(** C3 fails as stated: a POST request is answered 501, not 405. *)
Lemma post_request_not_405 :
  fst (Demo.served "POST /a.json HTTP/1.1") = Ret tt
  /\ startswith ("HTTP/1.0 501 Unsupported method ('POST')" ++ CRLF)
       (wfile (snd (Demo.served "POST /a.json HTTP/1.1"))) = true
  /\ startswith "HTTP/1.0 405"
       (wfile (snd (Demo.served "POST /a.json HTTP/1.1"))) = false.
Proof. repeat split; vm_compute; reflexivity. Qed.

Lemma end_headers_adds_cors_headers_witness :
  end_headers
    (set_headers_buffer (Some [status_line 200 "OK"])
       (set_request_version "HTTP/1.1"
          (new_handler "10.0.0.7" "/opt/druid/demo/sample-data")))
  = (Ret tt,
     set_headers_buffer (Some [])
       (set_wfile
          ("HTTP/1.0 200 OK" ++ CRLF
           ++ "Access-Control-Allow-Origin: *" ++ CRLF
           ++ "Access-Control-Allow-Methods: GET, OPTIONS" ++ CRLF
           ++ "Access-Control-Allow-Headers: Content-Type" ++ CRLF
           ++ CRLF)
          (set_request_version "HTTP/1.1"
             (new_handler "10.0.0.7" "/opt/druid/demo/sample-data")))).
Proof.
  apply (proj1 (end_headers_adds_cors_headers
                  (set_headers_buffer (Some [status_line 200 "OK"])
                     (set_request_version "HTTP/1.1"
                        (new_handler "10.0.0.7"
                           "/opt/druid/demo/sample-data"))))).
  reflexivity.
Defined.

(** C10 fails as stated for a request without a version: the handler
    that has parsed the request line [GET /a.json] is in HTTP/0.9 mode,
    where the override adds no header and writes nothing. *)
Lemma end_headers_http09_adds_nothing :
  request_version
    (snd (parse_request (RT := Demo.runtime)
            (Demo.request_line "GET /a.json")
            (new_handler "10.0.0.7" "/opt/druid/demo/sample-data")))
  = "HTTP/0.9"
  /\ end_headers
       (snd (parse_request (RT := Demo.runtime)
               (Demo.request_line "GET /a.json")
               (new_handler "10.0.0.7" "/opt/druid/demo/sample-data")))
     = (Ret tt,
        snd (parse_request (RT := Demo.runtime)
               (Demo.request_line "GET /a.json")
               (new_handler "10.0.0.7" "/opt/druid/demo/sample-data")))
  /\ wfile
       (snd (end_headers
               (snd (parse_request (RT := Demo.runtime)
                       (Demo.request_line "GET /a.json")
                       (new_handler "10.0.0.7"
                          "/opt/druid/demo/sample-data")))))
     = EmptyString
  /\ headers_buffer
       (snd (end_headers
               (snd (parse_request (RT := Demo.runtime)
                       (Demo.request_line "GET /a.json")
                       (new_handler "10.0.0.7"
                          "/opt/druid/demo/sample-data")))))
     = None.
Proof. repeat split; vm_compute; reflexivity. Qed.

Lemma log_message_prints_one_line_witness :
  log_message (RT := Demo.runtime) "code %d, message %s"
    [VInt 404; VStr "File not found"]
    (new_handler "10.0.0.7" "/opt/druid/demo/sample-data")
  = (Ret tt,
     set_stdout ["[HTTP] 10.0.0.7 - code 404, message File not found"]
       (new_handler "10.0.0.7" "/opt/druid/demo/sample-data")).
Proof.
  apply (proj1 (log_message_prints_one_line (RT := Demo.runtime)
                  (new_handler "10.0.0.7" "/opt/druid/demo/sample-data"))
           "code %d, message %s" "code 404, message File not found"
           [VInt 404; VStr "File not found"]).
  reflexivity.
Defined.

End HandlerFacts.

(** ** The server bootstrap: every run *)

Module BootstrapRuns.
Import PyStr Bootstrap BootstrapSpec BootstrapFacts.

#[local] Arguments OS.stat : simpl never.
#[local] Arguments sample_data_path : simpl never.
#[local] Arguments PosixPath.abspath : simpl never.
#[local] Arguments str_of_Z : simpl never.
#[local] Arguments String.append : simpl never.
#[local] Arguments rule : simpl never.

Lemma chdir_ok (W : world) (es : list string) (sz : Z) :
  OS.stat (fs W) (start_cwd W) (sample_data_path W) = Some (OS.Dir es sz) ->
  os_chdir W (sample_data_path W) (initial W)
  = (Ret tt, {| cwd := served_root W; stdout := []; stderr := [];
                actions := [Chdir (sample_data_path W)] |}).
Proof.
  intros Hst. unfold os_chdir, bind, get. cbn [initial cwd].
  rewrite Hst. reflexivity.
Qed.

Lemma http_server_ok (W : world) (p : Z) (s : proc) :
  bind_error W p = None ->
  HTTPServer W "0.0.0.0" p s
  = (Ret (bound_port W p),
     {| cwd := cwd s; stdout := stdout s; stderr := stderr s;
        actions := actions s ++ [SocketOpen; SocketBind "0.0.0.0" p;
                                 SocketListen (bound_port W p)] |}).
Proof.
  unfold bind_error, bound_port. intros Hb.
  unfold HTTPServer, socket_bind, try_except, bind, act, modify.
  cbn [cwd stdout stderr actions].
  destruct ((p <? 0) || (65535 <? p)); [discriminate |].
  destruct (p =? 0).
  - cbn [ret cwd stdout stderr actions]. repeat rewrite <- app_assoc.
    reflexivity.
  - destruct (port_free W p); [| discriminate].
    cbn [ret cwd stdout stderr actions]. repeat rewrite <- app_assoc.
    reflexivity.
Qed.

Lemma http_server_fails (W : world) (p : Z) (e : exn) (s : proc) :
  bind_error W p = Some e ->
  HTTPServer W "0.0.0.0" p s
  = (Raise e,
     {| cwd := cwd s; stdout := stdout s; stderr := stderr s;
        actions := actions s ++ [SocketOpen; SocketBind "0.0.0.0" p;
                                 SocketClose] |}).
Proof.
  unfold bind_error. intros Hb.
  unfold HTTPServer, socket_bind, try_except, bind, act, modify.
  cbn [cwd stdout stderr actions].
  destruct ((p <? 0) || (65535 <? p)).
  - injection Hb as <-. cbn [raise cwd stdout stderr actions].
    repeat rewrite <- app_assoc. reflexivity.
  - destruct (p =? 0); [discriminate |].
    destruct (port_free W p); [discriminate |].
    injection Hb as <-. cbn [raise cwd stdout stderr actions].
    repeat rewrite <- app_assoc. reflexivity.
Qed.

(** The run that reaches the accept loop. *)
Lemma main_listening (W : world) (p : Z) (es entries : list string) (sz : Z) :
  port_argument W p ->
  OS.stat (fs W) (start_cwd W) (sample_data_path W) = Some (OS.Dir es sz) ->
  OS.listdir (fs W) (served_root W) "." = Some entries ->
  bind_error W p = None ->
  main W (initial W) =
    ((if interrupted W then Raise (SystemExit 0) else Blocked),
     {| cwd := served_root W;
        stdout :=
          banner_head p (sample_data_path W)
            (List.length (filter (OS.isfile (fs W) (served_root W)) entries))
          ++ map (fun f => file_line p f (size_in W (served_root W) f))
               (listed W entries)
          ++ banner_tail p
          ++ (if interrupted W then [stop_message] else []);
        stderr := [];
        actions :=
          serving_actions W p
          ++ (if interrupted W then [Shutdown] else []) |}).
Proof.
  intros Hp Hst Hls Hbind. unfold main.
  rewrite (bind_ret _ _ _ _ _ (port_from_command_line_ok W p _ Hp)).
  unfold bind at 1. cbn [get initial cwd].
  unfold OS.path_exists. rewrite Hst. cbn [negb].
  rewrite (bind_ret _ _ _ _ _ (chdir_ok W es sz Hst)).
  match goal with |- bind _ _ ?s = _ =>
    assert (Els : os_listdir W "." s = (Ret entries, s))
      by (unfold os_listdir, bind, get; cbn [cwd]; rewrite Hls; reflexivity)
  end.
  rewrite (bind_ret _ _ _ _ _ Els).
  unfold bind at 1. cbn [get cwd].
  rewrite (bind_ret _ _ _ _ _ (http_server_ok W p _ Hbind)).
  cbn [cwd stdout stderr actions app].
  do 8 (unfold bind at 1; cbn [print modify cwd stdout stderr actions app]).
  match goal with |- bind (for_each ?l _) _ ?s = _ =>
    rewrite (bind_ret _ _ _ _ _
               (banner_loop W p l s (listed_isfile W entries)))
  end.
  do 8 (unfold bind at 1; cbn [print modify cwd stdout stderr actions app]).
  unfold banner_head, banner_tail, listed, serving_actions, stop_message.
  unfold try_except, serve_forever, bind, act, sys_exit, raise, print.
  cbn [modify cwd stdout stderr actions].
  destruct (interrupted W); cbn [modify cwd stdout stderr actions app];
    repeat rewrite <- app_assoc; cbn [app]; try rewrite app_nil_r;
    reflexivity.
Qed.

(** The run in which the listing of the directory fails. *)
Lemma script_listdir_fails (W : world) (p : Z) (es : list string) (sz : Z) :
  port_argument W p ->
  OS.stat (fs W) (start_cwd W) (sample_data_path W) = Some (OS.Dir es sz) ->
  OS.listdir (fs W) (served_root W) "." = None ->
  script W =
    {| exit_status := Some 1;
       final := {| cwd := served_root W; stdout := [];
                   stderr := [Traceback OSError];
                   actions := [Chdir (sample_data_path W)] |} |}.
Proof.
  intros Hp Hst Hls. unfold script, main.
  rewrite (bind_ret _ _ _ _ _ (port_from_command_line_ok W p _ Hp)).
  unfold bind at 1. cbn [get initial cwd].
  unfold OS.path_exists. rewrite Hst. cbn [negb].
  rewrite (bind_ret _ _ _ _ _ (chdir_ok W es sz Hst)).
  match goal with |- context [bind _ _ ?s] =>
    assert (Els : os_listdir W "." s = (Raise OSError, s))
      by (unfold os_listdir, bind, get; cbn [cwd]; rewrite Hls; reflexivity)
  end.
  rewrite (bind_raise _ _ _ _ _ Els). reflexivity.
Qed.

(** The run in which the bind fails. *)
Lemma script_bind_fails (W : world) (p : Z) (e : exn)
  (es entries : list string) (sz : Z) :
  port_argument W p ->
  OS.stat (fs W) (start_cwd W) (sample_data_path W) = Some (OS.Dir es sz) ->
  OS.listdir (fs W) (served_root W) "." = Some entries ->
  bind_error W p = Some e ->
  script W =
    {| exit_status := Some 1;
       final := {| cwd := served_root W; stdout := [];
                   stderr := [Traceback e];
                   actions := [Chdir (sample_data_path W); SocketOpen;
                               SocketBind "0.0.0.0" p; SocketClose] |} |}.
Proof.
  intros Hp Hst Hls Hbind. unfold script, main.
  rewrite (bind_ret _ _ _ _ _ (port_from_command_line_ok W p _ Hp)).
  unfold bind at 1. cbn [get initial cwd].
  unfold OS.path_exists. rewrite Hst. cbn [negb].
  rewrite (bind_ret _ _ _ _ _ (chdir_ok W es sz Hst)).
  match goal with |- context [bind _ _ ?s] =>
    assert (Els : os_listdir W "." s = (Ret entries, s))
      by (unfold os_listdir, bind, get; cbn [cwd]; rewrite Hls; reflexivity)
  end.
  rewrite (bind_ret _ _ _ _ _ Els).
  unfold bind at 1. cbn [get cwd].
  rewrite (bind_raise _ _ _ _ _ (http_server_fails W p e _ Hbind)).
  cbn [cwd stdout stderr actions app].
  assert (He : e = OverflowError \/ e = OSError).
  { unfold bind_error in Hbind.
    destruct ((p <? 0) || (65535 <? p)); [left; congruence |].
    destruct (p =? 0); [discriminate |].
    destruct (port_free W p); [discriminate | right; congruence]. }
  destruct He as [-> | ->]; reflexivity.
Qed.

(** Every run is one of six. *)
Lemma run_cases (W : world) :
  ((1 < List.length (argv W))%nat
   /\ py_int (nth 1 (argv W) EmptyString) = None)
  \/ (exists p,
        port_argument W p
        /\ OS.path_exists (fs W) (start_cwd W) (sample_data_path W) = false)
  \/ (exists p c m,
        port_argument W p
        /\ OS.stat (fs W) (start_cwd W) (sample_data_path W)
           = Some (OS.File c m))
  \/ (exists p es sz,
        port_argument W p
        /\ OS.stat (fs W) (start_cwd W) (sample_data_path W)
           = Some (OS.Dir es sz)
        /\ OS.listdir (fs W) (served_root W) "." = None)
  \/ (exists p es sz entries e,
        port_argument W p
        /\ OS.stat (fs W) (start_cwd W) (sample_data_path W)
           = Some (OS.Dir es sz)
        /\ OS.listdir (fs W) (served_root W) "." = Some entries
        /\ bind_error W p = Some e)
  \/ (exists p es sz entries,
        port_argument W p
        /\ OS.stat (fs W) (start_cwd W) (sample_data_path W)
           = Some (OS.Dir es sz)
        /\ OS.listdir (fs W) (served_root W) "." = Some entries
        /\ bind_error W p = None).
Proof.
  destruct (port_argument_cases W) as [[p Hp] | Hbad]; [| left; exact Hbad].
  right.
  destruct (OS.stat (fs W) (start_cwd W) (sample_data_path W))
    as [[c m | es sz] |] eqn:Hst.
  - right. left. exists p, c, m. split; [exact Hp | reflexivity].
  - right. right.
    destruct (OS.listdir (fs W) (served_root W) ".") as [entries |] eqn:Hls.
    + right. destruct (bind_error W p) as [e |] eqn:Hb.
      * left. exists p, es, sz, entries, e. repeat split; assumption.
      * right. exists p, es, sz, entries. repeat split; assumption.
    + left. exists p, es, sz. repeat split; assumption.
  - left. exists p. split; [exact Hp |].
    unfold OS.path_exists. rewrite Hst. reflexivity.
Qed.

Lemma script_listening (W : world) (p : Z) (es entries : list string)
  (sz : Z) :
  port_argument W p ->
  OS.stat (fs W) (start_cwd W) (sample_data_path W) = Some (OS.Dir es sz) ->
  OS.listdir (fs W) (served_root W) "." = Some entries ->
  bind_error W p = None ->
  script W =
    {| exit_status := (if interrupted W then Some 0 else None);
       final := snd (main W (initial W)) |}.
Proof.
  intros Hp Hst Hls Hb. unfold script.
  rewrite (main_listening W p es entries sz Hp Hst Hls Hb).
  destruct (interrupted W); reflexivity.
Qed.

(** X1: the process ends with status 0 only when it was serving and was
    interrupted: then the last line printed is the stop message and the
    last action is the shutdown of the server. *)
Theorem exit_zero_only_after_interrupt (W : world) :
  exit_status (script W) = Some 0 ->
  interrupted W = true
  /\ exists (p : Z) (out : list string),
       stdout (final (script W)) = (out ++ [stop_message])%list
       /\ actions (final (script W))
          = (serving_actions W p ++ [Shutdown])%list.
Proof.
  intros Hexit.
  destruct (run_cases W)
    as [[Hlen Hint]
       | [[p [Hp Hex]]
         | [[p [c [m [Hp Hst]]]]
           | [[p [es [sz [Hp [Hst Hls]]]]]
             | [[p [es [sz [entries [e [Hp [Hst [Hls Hb]]]]]]]]
               | [p [es [sz [entries [Hp [Hst [Hls Hb]]]]]]]]]]]].
  - rewrite (script_invalid_port W Hlen Hint) in Hexit. discriminate.
  - rewrite (script_missing_directory W p Hp Hex) in Hexit. discriminate.
  - rewrite (script_directory_is_file W p c m Hp Hst) in Hexit.
    discriminate.
  - rewrite (script_listdir_fails W p es sz Hp Hst Hls) in Hexit.
    discriminate.
  - rewrite (script_bind_fails W p e es entries sz Hp Hst Hls Hb) in Hexit.
    discriminate.
  - rewrite (script_listening W p es entries sz Hp Hst Hls Hb) in *.
    rewrite (main_listening W p es entries sz Hp Hst Hls Hb).
    cbn [exit_status final snd stdout actions] in *.
    destruct (interrupted W); [| discriminate].
    split; [reflexivity |]. exists p. eexists. split; [| reflexivity].
    repeat rewrite app_assoc. reflexivity.
Qed.

Lemma exit_zero_only_after_interrupt_witness :
  Bootstrap.interrupted (Demo.interrupted_world Demo.sample_fs ["9000"])
  = true
  /\ exists (p : Z) (out : list string),
       stdout (final (script (Demo.interrupted_world Demo.sample_fs
                               ["9000"])))
       = (out ++ [stop_message])%list
       /\ actions (final (script (Demo.interrupted_world Demo.sample_fs
                                    ["9000"])))
          = (serving_actions (Demo.interrupted_world Demo.sample_fs ["9000"])
               p ++ [Shutdown])%list.
Proof.
  apply (exit_zero_only_after_interrupt
           (Demo.interrupted_world Demo.sample_fs ["9000"])).
  vm_compute. reflexivity.
Defined.



(** X3: when the bind fails, because the port is outside 0..65535
    ([OverflowError]) or because a port in 1..65535 cannot be bound
    ([OSError]), the socket that was opened is closed again, the
    exception reaches the top, and the process ends with status 1
    without having printed anything: the banner is printed only after
    the server exists. *)
Theorem bind_failure_closes_socket
  (W : world) (p : Z) (es entries : list string) (sz : Z) :
  port_argument W p ->
  OS.stat (fs W) (start_cwd W) (sample_data_path W) = Some (OS.Dir es sz) ->
  OS.listdir (fs W) (served_root W) "." = Some entries ->
  p < 0 \/ 65535 < p \/ (1 <= p <= 65535 /\ port_free W p = false) ->
  script W =
    {| exit_status := Some 1;
       final :=
         {| cwd := served_root W; stdout := [];
            stderr := [Traceback (if (p <? 0) || (65535 <? p)
                                  then OverflowError else OSError)];
            actions := [Chdir (sample_data_path W); SocketOpen;
                        SocketBind "0.0.0.0" p; SocketClose] |} |}.
Proof.
  intros Hp Hst Hls Hfail.
  apply (script_bind_fails W p _ es entries sz Hp Hst Hls).
  unfold bind_error.
  destruct (Z.ltb_spec p 0); [reflexivity |].
  destruct (Z.ltb_spec 65535 p); [reflexivity |].
  cbn [orb].
  destruct Hfail as [H1 | [H1 | [H1 Hfree]]]; try lia.
  destruct (Z.eqb_spec p 0); [lia |]. rewrite Hfree. reflexivity.
Qed.

Lemma bind_failure_closes_socket_witness :
  script (Demo.busy_world Demo.sample_fs ["9000"]) =
    {| exit_status := Some 1;
       final :=
         {| cwd := "/opt/druid/demo/sample-data"; stdout := [];
            stderr := [Traceback OSError];
            actions := [Chdir "/opt/druid/demo/sample-data"; SocketOpen;
                        SocketBind "0.0.0.0" 9000; SocketClose] |} |}.
Proof.
  apply (bind_failure_closes_socket (Demo.busy_world Demo.sample_fs ["9000"])
           9000 ["b.csv"; "sub"; "a.json"] ["b.csv"; "sub"; "a.json"] 4096).
  - right. split; [cbn; lia | reflexivity].
  - reflexivity.
  - reflexivity.
  - right. right. split; [lia | reflexivity].
Defined.



(** X5: in the banner of a server that started, the eighth line gives
    the number of regular files found in the directory, and exactly
    that many file lines follow it before the closing rule: the count
    taken before the sort and the lines printed after it agree. *)
Theorem banner_count_matches_lines
  (W : world) (p : Z) (es entries : list string) (sz : Z) :
  port_argument W p ->
  OS.stat (fs W) (start_cwd W) (sample_data_path W) = Some (OS.Dir es sz) ->
  OS.listdir (fs W) (served_root W) "." = Some entries ->
  bind_error W p = None ->
  exists (pre lines post : list string),
    stdout (final (script W))
    = (pre
       ++ [("📄 Available files ("
            ++ str_of_Z (Z.of_nat (List.length lines)) ++ "):")%string]
       ++ lines ++ rule :: post)%list
    /\ List.length pre = 7%nat
    /\ List.length lines
       = List.length (filter (OS.isfile (fs W) (served_root W)) entries)
    /\ Forall2 (describes W p) (listed W entries) lines.
Proof.
  intros Hp Hst Hls Hb.
  rewrite (script_listening W p es entries sz Hp Hst Hls Hb).
  rewrite (main_listening W p es entries sz Hp Hst Hls Hb).
  cbn [final snd stdout].
  assert (Hlen : List.length
                   (map (fun f => file_line p f (size_in W (served_root W) f))
                      (listed W entries))
                 = List.length
                     (filter (OS.isfile (fs W) (served_root W)) entries)).
  { rewrite length_map. unfold listed.
    apply Permutation_length, sorted_perm. }
  exists [rule; "🚀 Druid Sample Data HTTP Server"; rule;
          "📁 Serving directory: " ++ sample_data_path W;
          "🌐 Server running at: http://localhost:" ++ str_of_Z p ++ "/";
          "🌐 Network address:   http://0.0.0.0:" ++ str_of_Z p ++ "/";
          rule].
  exists (map (fun f => file_line p f (size_in W (served_root W) f))
            (listed W entries)).
  exists (tl (banner_tail p)
          ++ (if interrupted W then [stop_message] else []))%list.
  split.
  { rewrite Hlen. unfold banner_head, banner_tail. cbn [app tl].
    reflexivity. }
  split; [reflexivity |]. split; [exact Hlen |].
  apply listed_described, listed_isfile.
Qed.

Lemma banner_count_matches_lines_witness :
  exists (pre lines post : list string),
    stdout (final (script (Demo.world_with Demo.sample_fs ["9000"])))
    = (pre
       ++ [("📄 Available files ("
            ++ str_of_Z (Z.of_nat (List.length lines)) ++ "):")%string]
       ++ lines ++ rule :: post)%list
    /\ List.length pre = 7%nat
    /\ List.length lines
       = List.length
           (filter (OS.isfile Demo.sample_fs "/opt/druid/demo/sample-data")
              ["b.csv"; "sub"; "a.json"])
    /\ Forall2 (describes (Demo.world_with Demo.sample_fs ["9000"]) 9000)
         (listed (Demo.world_with Demo.sample_fs ["9000"])
            ["b.csv"; "sub"; "a.json"])
         lines.
Proof.
  apply (banner_count_matches_lines (Demo.world_with Demo.sample_fs ["9000"])
           9000 ["b.csv"; "sub"; "a.json"] ["b.csv"; "sub"; "a.json"] 4096).
  - right. split; [cbn; lia | reflexivity].
  - reflexivity.
  - reflexivity.
  - reflexivity.
Defined.

(** X6: port 0 is accepted. The bind then always succeeds and the
    server listens on the port the system chose, while the banner and
    every file URL in it still name port 0, which no client can use. *)
Theorem port_zero_banner_names_port_zero
  (W : world) (es entries : list string) (sz : Z) :
  port_argument W 0 ->
  OS.stat (fs W) (start_cwd W) (sample_data_path W) = Some (OS.Dir es sz) ->
  OS.listdir (fs W) (served_root W) "." = Some entries ->
  actions (final (script W))
  = ([Chdir (sample_data_path W); SocketOpen; SocketBind "0.0.0.0" 0;
      SocketListen (ephemeral_port W); ServeForever]
     ++ (if interrupted W then [Shutdown] else []))%list
  /\ nth_error (stdout (final (script W))) 4
     = Some "🌐 Server running at: http://localhost:0/"
  /\ exists (head lines tail : list string),
       stdout (final (script W)) = (head ++ lines ++ tail)%list
       /\ List.length head = 8%nat
       /\ Forall2 (describes W 0) (listed W entries) lines.
Proof.
  intros Hp Hst Hls.
  assert (Hb : bind_error W 0 = None) by reflexivity.
  rewrite (script_listening W 0 es entries sz Hp Hst Hls Hb).
  rewrite (main_listening W 0 es entries sz Hp Hst Hls Hb).
  cbn [final snd stdout actions].
  split; [reflexivity |]. split; [reflexivity |].
  eexists. eexists. eexists. split; [reflexivity |].
  split; [reflexivity |].
  apply listed_described, listed_isfile.
Qed.

Lemma port_zero_banner_names_port_zero_witness :
  actions (final (script (Demo.world_with Demo.sample_fs ["0"])))
  = ([Chdir "/opt/druid/demo/sample-data"; SocketOpen;
      SocketBind "0.0.0.0" 0;
      SocketListen (ephemeral_port (Demo.world_with Demo.sample_fs ["0"]));
      ServeForever] ++ [])%list
  /\ nth_error (stdout (final (script (Demo.world_with Demo.sample_fs
                                         ["0"])))) 4
     = Some "🌐 Server running at: http://localhost:0/"
  /\ exists (head lines tail : list string),
       stdout (final (script (Demo.world_with Demo.sample_fs ["0"])))
       = (head ++ lines ++ tail)%list
       /\ List.length head = 8%nat
       /\ Forall2 (describes (Demo.world_with Demo.sample_fs ["0"]) 0)
            (listed (Demo.world_with Demo.sample_fs ["0"])
               ["b.csv"; "sub"; "a.json"])
            lines.
Proof.
  apply (port_zero_banner_names_port_zero
           (Demo.world_with Demo.sample_fs ["0"])
           ["b.csv"; "sub"; "a.json"] ["b.csv"; "sub"; "a.json"] 4096).
  - right. split; [cbn; lia | reflexivity].
  - reflexivity.
  - reflexivity.
Defined.

End BootstrapRuns.

(** ** What serving a request can and cannot do *)

Module HandlerRuns.
Import PyStr Handler HandlerSpec HandlerFacts.

#[local] Arguments String.append : simpl never.
#[local] Arguments str_of_Z : simpl never.
#[local] Arguments utf8_encode : simpl never.
#[local] Arguments html_escape : simpl never.
#[local] Arguments error_message_format : simpl never.
#[local] Arguments String.concat : simpl never.
#[local] Arguments len : simpl never.

Lemma logs_only_refl (st : handler) : logs_only st st.
Proof.
  split; [reflexivity |]. split; [reflexivity |]. split; [tauto |].
  exists []. split; [symmetry; apply app_nil_r | constructor].
Qed.

Lemma logs_only_trans (st1 st2 st3 : handler) :
  logs_only st1 st2 -> logs_only st2 st3 -> logs_only st1 st3.
Proof.
  intros [Ha [He [Hc [l1 [Ho Hl]]]]] [Ha' [He' [Hc' [l2 [Ho' Hl']]]]].
  split; [congruence |]. split; [congruence |]. split; [tauto |].
  exists (l1 ++ l2)%list. split.
  - rewrite Ho', Ho, app_assoc. reflexivity.
  - apply Forall_app. split; [exact Hl |]. rewrite <- Ha. exact Hl'.
Qed.

Lemma keeps_ret {A : Type} (a : A) : keeps (ret a).
Proof. intros st. apply logs_only_refl. Qed.

Lemma keeps_raise {A : Type} (e : exn) : keeps (raise (A := A) e).
Proof. intros st. apply logs_only_refl. Qed.

Lemma keeps_get : keeps get.
Proof. intros st. apply logs_only_refl. Qed.

Lemma keeps_bind {A B : Type} (m : H A) (k : A -> H B) :
  keeps m -> (forall a, keeps (k a)) -> keeps (bind m k).
Proof.
  intros Hm Hk st. unfold bind. specialize (Hm st).
  destruct (m st) as [[a | e |] st1]; cbn [snd] in *; try exact Hm.
  apply (logs_only_trans _ _ _ Hm), Hk.
Qed.

(** An assignment to an attribute other than the four observed. *)
Lemma keeps_modify (f : handler -> handler) :
  (forall st, client_address (f st) = client_address st
              /\ stderr (f st) = stderr st
              /\ stdout (f st) = stdout st
              /\ (close_connection st = true
                  -> close_connection (f st) = true)) ->
  keeps (modify f).
Proof.
  intros Hf st. destruct (Hf st) as [Ha [He [Ho Hc]]].
  unfold modify. cbn [snd].
  split; [exact Ha |]. split; [exact He |]. split; [exact Hc |].
  exists []. split; [rewrite app_nil_r; exact Ho | constructor].
Qed.

Section Invariant.
Context {RT : Runtime}.
Variable fs : OS.filesystem.
Variable req : request.

Ltac attribute :=
  apply keeps_modify; intros ?;
  cbn [client_address stderr stdout close_connection
         set_requestline set_request_version set_command set_path
         set_headers set_close_connection set_headers_buffer set_wfile];
  repeat split; tauto.

Ltac keep :=
  repeat first
    [ apply keeps_ret
    | apply keeps_raise
    | apply keeps_get
    | assumption
    | attribute
    | apply keeps_bind; [| intros ?]
    | match goal with
      | |- keeps (if ?b then _ else _) => destruct b
      | |- keeps (match ?x with _ => _ end) => destruct x
      end ].



Lemma keeps_wfile_write (data : string) : keeps (wfile_write data).
Proof. unfold wfile_write. attribute. Qed.

Lemma keeps_send_response_only (code : Z) (message : option string) :
  keeps (send_response_only code message).
Proof. unfold send_response_only. keep. Qed.

(** [send_header] keeps the connection marked unless it is given the
    header Connection: keep-alive. *)
Lemma keeps_send_header (keyword value : string) :
  String.eqb (lower keyword) "connection"
  && String.eqb (lower value) "keep-alive" = false ->
  keeps (send_header keyword value).
Proof.
  intros Hk. unfold send_header.
  apply keeps_bind; [apply keeps_get | intros s].
  apply keeps_bind; [keep | intros _].
  destruct (String.eqb (lower keyword) "connection"); [| keep].
  cbn [andb] in Hk. rewrite Hk.
  destruct (String.eqb (lower value) "close"); keep.
Qed.

Lemma keeps_flush_headers : keeps flush_headers.
Proof.
  unfold flush_headers.
  apply keeps_bind; [apply keeps_get | intros s].
  destruct (headers_buffer s); [| keep].
  apply keeps_bind; [apply keeps_wfile_write | intros _]. keep.
Qed.

Lemma keeps_base_end_headers : keeps base_end_headers.
Proof.
  unfold base_end_headers.
  apply keeps_bind; [apply keeps_get | intros s].
  destruct (negb _); [| keep].
  destruct (headers_buffer s); [| keep].
  apply keeps_bind; [keep | intros _]. apply keeps_flush_headers.
Qed.

Lemma keeps_end_headers : keeps end_headers.
Proof.
  unfold end_headers.
  repeat (apply keeps_bind;
          [apply keeps_send_header; reflexivity | intros _]).
  apply keeps_base_end_headers.
Qed.



Lemma keeps_handle_expect_100 : keeps handle_expect_100.
Proof.
  unfold handle_expect_100.
  apply keeps_bind; [apply keeps_send_response_only | intros _].
  apply keeps_bind; [apply keeps_end_headers | intros _]. keep.
Qed.











End Invariant.

Section Responses.
Context {RT : Runtime}.
Variable fs : OS.filesystem.
Variable req : request.

Ltac live E :=
  first
    [ erewrite bind_ret by (apply send_response_live; exact E)
    | erewrite bind_ret by (apply send_header_live; [exact E | reflexivity])
    | erewrite bind_ret by (apply end_headers_live; exact E) ].

Ltac fields :=
  cbn [request_version command headers_buffer wfile stdout client_address
         requestline
         set_headers_buffer set_wfile set_close_connection set_stdout
         set_command set_path set_headers set_requestline
         set_request_version].

Ltac flatten Hb :=
  fields; unfold buffered, list_append in *; fields;
  rewrite ?Hb; cbn [app];
  unfold cors_block; repeat rewrite concat_empty_cons;
  cbn [String.concat];
  repeat rewrite append_assoc; repeat rewrite append_nil_r.

Lemma parse_request_headers_accepted (st : handler) (c p : string)
  (fields : list (string * string)) :
  raw_headers req = Headers fields ->
  exists st1,
    parse_request_headers req c p st = (Ret true, st1)
    /\ accepted c p (request_version st) (requestline st) fields st st1.
Proof.
  intros Hh. unfold parse_request_headers.
  unfold bind at 1, modify. unfold bind at 1, modify. rewrite Hh.
  replace (String.leb "HTTP/1.1" protocol_version) with false by reflexivity.
  unfold bind, modify, get, ret. cbn beta iota.
  rewrite !andb_false_r. cbn [andb].
  destruct (String.eqb (lower _) "close");
    eexists; (split; [reflexivity | repeat split]).
Qed.

(** A request line of three words with an acceptable version. *)
Lemma parse_request_accepted (st : handler) (c p v : string)
  (fields : list (string * string)) :
  request_words req = [c; p; v] ->
  acceptable v ->
  raw_headers req = Headers fields ->
  exists st1,
    parse_request req st = (Ret true, st1)
    /\ accepted c p v (rstrip_crlf (raw_requestline req)) fields st st1.
Proof.
  intros Hw Hacc Hh. unfold parse_request.
  do 4 (unfold bind at 1, modify).
  fold (request_words req). rewrite Hw.
  set (st0 := set_requestline _ _).
  rewrite (bind_ret _ _ _ _ _
             (parse_request_version_ok st0 [c; p; v]
                (Nat.le_refl 3) Hacc)).
  cbn [negb List.last].
  destruct (parse_request_headers_accepted (set_request_version v st0) c p
              fields Hh) as [st1 [Hrun Hp]].
  exists st1. split; [exact Hrun | exact Hp].
Qed.


(** After the request is accepted, the method named by its command is
    run. *)
Lemma serve_dispatch (client dir c : string) (st1 : handler) :
  len (raw_requestline req) <= 65536 ->
  request_words req <> [] ->
  parse_request req (new_handler client dir) = (Ret true, st1) ->
  command st1 = Some c ->
  serve fs req client dir =
    match get_method fs ("do_" ++ c) with
    | None =>
        send_error 501 (Some ("Unsupported method (" ++ py_repr c ++ ")"))
          None st1
    | Some method => method st1
    end.
Proof.
  intros Hshort Hw Hrun Hc. unfold serve, handle_one_request.
  destruct (Z.ltb_spec 65536 (len (raw_requestline req))); [lia |].
  destruct (String.eqb_spec (raw_requestline req) EmptyString) as [Hraw | _].
  { exfalso. apply Hw. unfold request_words. rewrite Hraw. reflexivity. }
  rewrite (bind_ret _ _ _ _ _ Hrun). cbn [negb].
  unfold bind at 1, get. rewrite Hc.
  destruct (get_method fs ("do_" ++ c)); reflexivity.
Qed.








(** X12: a GET or HEAD request for a directory, written without the
    final slash, is redirected: the answer is exactly the status line
    HTTP/1.0 301 Moved Permanently, the headers Server, Date, Location
    (the request path with the slash added) and Content-Length: 0, the
    three CORS headers and the blank line, with no body; one access
    line with status 301 is printed. *)
Theorem directory_without_slash_redirected
  (client dir c p v : string) (fields : list (string * string)) :
  c = "GET" \/ c = "HEAD" ->
  request_words req = [c; p; v] ->
  acceptable v ->
  v <> "HTTP/0.9" ->
  raw_headers req = Headers fields ->
  len (raw_requestline req) <= 65536 ->
  OS.isdir fs dir (translate_path dir (stored_path p)) = true ->
  endswith_char "/" (urlsplit_path (stored_path p)) = false ->
  fst (serve fs req client dir) = Ret tt
  /\ wfile (snd (serve fs req client dir))
     = status_line 301 "Moved Permanently"
       ++ header_line "Server" version_string
       ++ header_line "Date" (date_time_string None)
       ++ header_line "Location" (redirect_url (stored_path p))
       ++ header_line "Content-Length" "0"
       ++ cors_block ++ CRLF
  /\ stdout (snd (serve fs req client dir))
     = [access_line client (rstrip_crlf (raw_requestline req)) 301].
Proof.
  intros Hc Hw Hacc Hv Hh Hshort Hisdir Hslash.
  apply String.eqb_neq in Hv.
  destruct (parse_request_accepted (new_handler client dir) c p v fields
              Hw Hacc Hh)
    as [st1 [Hrun [[Hcmd [Hp [Hver [Hwf [Hbuf Hdir]]]]]
                     [Hline [Hfields [Hclient Hout]]]]]].
  assert (E1 : with_headers st1) by (unfold with_headers; congruence).
  assert (Hb1 : buffered st1 = [])
    by (rewrite (buffered_after _ st1 Hbuf); reflexivity).
  cbn [new_handler directory wfile client_address stdout] in *.
  assert (Hhead : exists st',
             send_head fs st1 = (Ret None, st')
             /\ wfile st'
                = wfile st1
                  ++ status_line 301 "Moved Permanently"
                  ++ header_line "Server" version_string
                  ++ header_line "Date" (date_time_string None)
                  ++ header_line "Location" (redirect_url (Handler.path st1))
                  ++ header_line "Content-Length" "0"
                  ++ cors_block ++ CRLF
             /\ stdout st'
                = (stdout st1
                   ++ [access_line (client_address st1) (requestline st1)
                         301])%list).
  { unfold send_head. unfold bind at 1, get.
    rewrite Hdir, Hp, Hisdir, Hslash. cbn [negb].
    eexists. split; [| split].
    - live E1. live E1. live E1. live E1. unfold ret. reflexivity.
    - flatten Hb1. unfold cors_block.
      change (reason_phrase 301 None) with "Moved Permanently".
      repeat rewrite append_assoc. reflexivity.
    - fields. reflexivity. }
  destruct Hhead as [st' [Hhead [Hwfile Hstdout]]].
  rewrite Hp, Hwf in Hwfile.
  rewrite Hout, Hclient, Hline in Hstdout. cbn [app] in Hstdout.
  assert (Hw' : request_words req <> []) by (rewrite Hw; discriminate).
  rewrite (serve_dispatch client dir c st1 Hshort Hw' Hrun Hcmd).
  rewrite get_method_eq.
  destruct Hc as [-> | ->].
  - change (String.eqb "GET" "GET") with true. cbn iota.
    unfold do_GET. rewrite (bind_ret _ _ _ _ _ Hhead).
    unfold ret. cbn [fst snd].
    split; [reflexivity |]. split; [exact Hwfile | exact Hstdout].
  - change (String.eqb "HEAD" "GET") with false.
    change (String.eqb "HEAD" "HEAD") with true. cbn iota.
    unfold do_HEAD. rewrite (bind_ret _ _ _ _ _ Hhead).
    unfold ret. cbn [fst snd].
    split; [reflexivity |]. split; [exact Hwfile | exact Hstdout].
Qed.

(** X13: directory listing is on. A GET or HEAD request for a directory,
    written with the final slash, in which neither index.html nor
    index.htm is a regular file, is answered 200 with the page that
    lists every entry of the directory, each marked as a directory or
    not: the headers are Server, Date, Content-type (text/html with
    the file-system encoding), Content-Length (the size of the page)
    and the three CORS headers; the page follows for GET, nothing for
    HEAD. *)
Theorem directory_listed
  (client dir c p v : string) (fields : list (string * string))
  (names : list string) :
  c = "GET" \/ c = "HEAD" ->
  request_words req = [c; p; v] ->
  acceptable v ->
  v <> "HTTP/0.9" ->
  raw_headers req = Headers fields ->
  len (raw_requestline req) <= 65536 ->
  endswith_char "/" (urlsplit_path (stored_path p)) = true ->
  OS.listdir fs dir (translate_path dir (stored_path p)) = Some names ->
  OS.isfile fs dir
    (PosixPath.join (translate_path dir (stored_path p)) "index.html")
  = false ->
  OS.isfile fs dir
    (PosixPath.join (translate_path dir (stored_path p)) "index.htm")
  = false ->
  let page :=
    render_listing (stored_path p)
      (map (fun name =>
              (name,
               OS.isdir fs dir
                 (PosixPath.join (translate_path dir (stored_path p))
                    name)))
         names) in
  fst (serve fs req client dir) = Ret tt
  /\ wfile (snd (serve fs req client dir))
     = status_line 200 "OK"
       ++ header_line "Server" version_string
       ++ header_line "Date" (date_time_string None)
       ++ header_line "Content-type" ("text/html; charset=" ++ fs_encoding)
       ++ header_line "Content-Length" (str_of_Z (len page))
       ++ cors_block ++ CRLF
       ++ (if String.eqb c "GET" then page else EmptyString)
  /\ stdout (snd (serve fs req client dir))
     = [access_line client (rstrip_crlf (raw_requestline req)) 200].
Proof.
  intros Hc Hw Hacc Hv Hh Hshort Hslash Hls Hhtml Hhtm page.
  apply String.eqb_neq in Hv.
  destruct (parse_request_accepted (new_handler client dir) c p v fields
              Hw Hacc Hh)
    as [st1 [Hrun [[Hcmd [Hp [Hver [Hwf [Hbuf Hdir]]]]]
                     [Hline [Hfields [Hclient Hout]]]]]].
  assert (E1 : with_headers st1) by (unfold with_headers; congruence).
  assert (Hb1 : buffered st1 = [])
    by (rewrite (buffered_after _ st1 Hbuf); reflexivity).
  cbn [new_handler directory wfile client_address stdout] in *.
  assert (Hisdir : OS.isdir fs dir (translate_path dir (stored_path p))
                   = true).
  { unfold OS.listdir in Hls. unfold OS.isdir.
    destruct (OS.stat fs dir (translate_path dir (stored_path p)))
      as [[content mtime | es sz] |]; try discriminate. reflexivity. }
  assert (Hhead : exists st',
             send_head fs st1 = (Ret (Some page), st')
             /\ wfile st'
                = wfile st1
                  ++ status_line 200 "OK"
                  ++ header_line "Server" version_string
                  ++ header_line "Date" (date_time_string None)
                  ++ header_line "Content-type"
                       ("text/html; charset=" ++ fs_encoding)
                  ++ header_line "Content-Length" (str_of_Z (len page))
                  ++ cors_block ++ CRLF
             /\ stdout st'
                = (stdout st1
                   ++ [access_line (client_address st1) (requestline st1)
                         200])%list).
  { unfold send_head. unfold bind at 1, get.
    rewrite Hdir, Hp, Hisdir, Hslash. cbn [negb find].
    rewrite Hhtml, Hhtm.
    unfold list_directory. unfold bind at 1, get.
    rewrite Hdir, Hp, Hls.
    eexists. split; [| split].
    - live E1. live E1. live E1. live E1. unfold ret. reflexivity.
    - flatten Hb1. unfold cors_block.
      change (reason_phrase 200 None) with "OK".
      repeat rewrite append_assoc. reflexivity.
    - fields. reflexivity. }
  destruct Hhead as [st' [Hhead [Hwfile Hstdout]]].
  rewrite Hwf in Hwfile.
  rewrite Hout, Hclient, Hline in Hstdout. cbn [app] in Hstdout.
  assert (Hw' : request_words req <> []) by (rewrite Hw; discriminate).
  rewrite (serve_dispatch client dir c st1 Hshort Hw' Hrun Hcmd).
  rewrite get_method_eq.
  destruct Hc as [-> | ->].
  - change (String.eqb "GET" "GET") with true. cbn iota.
    unfold do_GET. rewrite (bind_ret _ _ _ _ _ Hhead).
    unfold wfile_write, modify. cbn [fst snd wfile stdout set_wfile].
    split; [reflexivity |]. split; [| exact Hstdout].
    rewrite Hwfile. repeat rewrite append_assoc. reflexivity.
  - change (String.eqb "HEAD" "GET") with false.
    change (String.eqb "HEAD" "HEAD") with true. cbn iota.
    unfold do_HEAD. rewrite (bind_ret _ _ _ _ _ Hhead).
    unfold ret. cbn [fst snd].
    split; [reflexivity |]. split; [| exact Hstdout].
    rewrite Hwfile. repeat rewrite append_assoc.
    repeat rewrite append_nil_r. reflexivity.
Qed.

(** X14: a GET or HEAD request whose path is translated to a name with
    a null character in it (and no final slash) is not answered at
    all: opening the file raises [ValueError], which no handler
    catches, and nothing has been written to the client or printed. *)
Theorem null_character_in_path_raises
  (client dir c p v : string) (fields : list (string * string)) :
  c = "GET" \/ c = "HEAD" ->
  request_words req = [c; p; v] ->
  acceptable v ->
  raw_headers req = Headers fields ->
  len (raw_requestline req) <= 65536 ->
  OS.has_nul (translate_path dir (stored_path p)) = true ->
  endswith_char "/" (translate_path dir (stored_path p)) = false ->
  fst (serve fs req client dir) = Raise ValueError
  /\ wfile (snd (serve fs req client dir)) = EmptyString
  /\ stdout (snd (serve fs req client dir)) = [].
Proof.
  intros Hc Hw Hacc Hh Hshort Hnul Hslash.
  destruct (parse_request_accepted (new_handler client dir) c p v fields
              Hw Hacc Hh)
    as [st1 [Hrun [[Hcmd [Hp [Hver [Hwf [Hbuf Hdir]]]]]
                     [Hline [Hfields [Hclient Hout]]]]]].
  cbn [new_handler directory wfile client_address stdout] in *.
  assert (Hhead : send_head fs st1 = (Raise ValueError, st1)).
  { unfold send_head. unfold bind at 1, get.
    rewrite Hdir, Hp. unfold OS.isdir, OS.stat. rewrite Hnul.
    unfold send_head_file. rewrite Hslash.
    assert (Hopen : open_rb fs (translate_path dir (stored_path p)) st1
                    = (Raise ValueError, st1))
      by (apply open_rb_nul; exact Hnul).
    rewrite (bind_raise _ _ _ _ _ Hopen). reflexivity. }
  assert (Hw' : request_words req <> []) by (rewrite Hw; discriminate).
  rewrite (serve_dispatch client dir c st1 Hshort Hw' Hrun Hcmd).
  rewrite get_method_eq.
  destruct Hc as [-> | ->].
  - change (String.eqb "GET" "GET") with true. cbn iota.
    unfold do_GET. rewrite (bind_raise _ _ _ _ _ Hhead).
    cbn [fst snd]. repeat split; assumption.
  - change (String.eqb "HEAD" "GET") with false.
    change (String.eqb "HEAD" "HEAD") with true. cbn iota.
    unfold do_HEAD. rewrite (bind_raise _ _ _ _ _ Hhead).
    cbn [fst snd]. repeat split; assumption.
Qed.

End Responses.



Lemma directory_without_slash_redirected_witness :
  fst (Demo.served "GET /sub HTTP/1.1") = Ret tt
  /\ wfile (snd (Demo.served "GET /sub HTTP/1.1"))
     = status_line 301 "Moved Permanently"
       ++ header_line "Server" (version_string (RT := Demo.runtime))
       ++ header_line "Date" (date_time_string (Runtime := Demo.runtime) None)
       ++ header_line "Location" "/sub/"
       ++ header_line "Content-Length" "0"
       ++ cors_block ++ CRLF
  /\ stdout (snd (Demo.served "GET /sub HTTP/1.1"))
     = [access_line "10.0.0.7" "GET /sub HTTP/1.1" 301].
Proof.
  apply (directory_without_slash_redirected (RT := Demo.runtime)
           Demo.sample_fs (Demo.request_line "GET /sub HTTP/1.1")
           "10.0.0.7" "/opt/druid/demo/sample-data"
           "GET" "/sub" "HTTP/1.1" []).
  - left. reflexivity.
  - reflexivity.
  - exists "1.1", (1, 1). split; reflexivity.
  - discriminate.
  - reflexivity.
  - vm_compute. discriminate.
  - reflexivity.
  - reflexivity.
Defined.

Lemma directory_listed_witness :
  fst (Demo.served "GET / HTTP/1.1") = Ret tt
  /\ wfile (snd (Demo.served "GET / HTTP/1.1"))
     = status_line 200 "OK"
       ++ header_line "Server" (version_string (RT := Demo.runtime))
       ++ header_line "Date" (date_time_string (Runtime := Demo.runtime) None)
       ++ header_line "Content-type" "text/html; charset=utf-8"
       ++ header_line "Content-Length" "15"
       ++ cors_block ++ CRLF
       ++ "<!DOCTYPE HTML>"
  /\ stdout (snd (Demo.served "GET / HTTP/1.1"))
     = [access_line "10.0.0.7" "GET / HTTP/1.1" 200].
Proof.
  apply (directory_listed (RT := Demo.runtime)
           Demo.sample_fs (Demo.request_line "GET / HTTP/1.1")
           "10.0.0.7" "/opt/druid/demo/sample-data"
           "GET" "/" "HTTP/1.1" [] ["b.csv"; "sub"; "a.json"]).
  - left. reflexivity.
  - reflexivity.
  - exists "1.1", (1, 1). split; reflexivity.
  - discriminate.
  - reflexivity.
  - vm_compute. discriminate.
  - reflexivity.
  - reflexivity.
  - reflexivity.
  - reflexivity.
Defined.

Lemma null_character_in_path_raises_witness :
  fst (Demo.served ("GET /a" ++ String (ascii_of_nat 0) "b HTTP/1.1"))
  = Raise ValueError
  /\ wfile (snd (Demo.served
                   ("GET /a" ++ String (ascii_of_nat 0) "b HTTP/1.1")))
     = EmptyString
  /\ stdout (snd (Demo.served
                    ("GET /a" ++ String (ascii_of_nat 0) "b HTTP/1.1")))
     = [].
Proof.
  apply (null_character_in_path_raises (RT := Demo.runtime)
           Demo.sample_fs
           (Demo.request_line
              ("GET /a" ++ String (ascii_of_nat 0) "b HTTP/1.1"))
           "10.0.0.7" "/opt/druid/demo/sample-data"
           "GET" ("/a" ++ String (ascii_of_nat 0) "b") "HTTP/1.1" []).
  - left. reflexivity.
  - reflexivity.
  - exists "1.1", (1, 1). split; reflexivity.
  - reflexivity.
  - vm_compute. discriminate.
  - reflexivity.
  - reflexivity.
Defined.

Section ErrorLog.
Context {RT : Runtime}.

Lemma bind_assoc {S A B C : Type} (m : Eff S A) (f : A -> Eff S B)
  (g : B -> Eff S C) (s : S) :
  bind (bind m f) g s = bind m (fun a => bind (f a) g) s.
Proof.
  unfold bind. destruct (m s) as [[a | e |] s1]; reflexivity.
Qed.

Lemma silent_ret {A : Type} (a : A) : silent (ret a).
Proof. intros st. repeat split. Qed.

Lemma silent_get : silent get.
Proof. intros st. repeat split. Qed.

Lemma silent_bind {A B : Type} (m : H A) (k : A -> H B) :
  silent m -> (forall a, silent (k a)) -> silent (bind m k).
Proof.
  intros Hm Hk st. unfold bind. specialize (Hm st).
  destruct (m st) as [[a | e |] st1]; cbn [snd] in *; try exact Hm.
  destruct Hm as [Ho [Hc Hl]]. destruct (Hk a st1) as [Ho' [Hc' Hl']].
  repeat split; congruence.
Qed.

Lemma silent_modify (f : handler -> handler) :
  (forall st, stdout (f st) = stdout st
              /\ client_address (f st) = client_address st
              /\ requestline (f st) = requestline st) ->
  silent (modify f).
Proof. intros Hf st. exact (Hf st). Qed.

Ltac hush :=
  repeat first
    [ apply silent_ret
    | apply silent_get
    | assumption
    | solve [apply silent_modify; intros ?; repeat split]
    | apply silent_bind; [| intros ?]
    | match goal with
      | |- silent (if ?b then _ else _) => destruct b
      | |- silent (match ?x with _ => _ end) => destruct x
      end ].

Lemma silent_send_response_only (code : Z) (message : option string) :
  silent (send_response_only code message).
Proof. unfold send_response_only. hush. Qed.

Lemma silent_send_header (keyword value : string) :
  silent (send_header keyword value).
Proof. unfold send_header. hush. Qed.

Lemma silent_end_headers : silent end_headers.
Proof.
  unfold end_headers.
  repeat (apply silent_bind; [apply silent_send_header | intros _]).
  unfold base_end_headers, flush_headers, wfile_write. hush.
Qed.

Lemma silent_wfile_write (data : string) : silent (wfile_write data).
Proof. unfold wfile_write. hush. Qed.

(** X10: whatever the status, the message and the state of the
    handler, [send_error] prints exactly two lines: the line
    [code <status>, message <reason>] and then the access line of the
    request with that status, each with the script's tag and the
    client address; the reason is the one given or else the standard
    phrase of the status. *)
Theorem send_error_prints_two_lines (st : handler) (code : Z)
  (message explain : option string) :
  stdout (snd (send_error code message explain st))
  = (stdout st
     ++ [error_line (client_address st) code (error_reason code message);
         access_line (client_address st) (requestline st) code])%list.
Proof.
  unfold send_error, error_reason.
  destruct (responses code) as [[shortmsg longmsg] |].
  all: unfold log_error;
    erewrite bind_ret
      by (apply log_message_ok; cbn [py_format Ascii.eqb Bool.eqb conv_s];
          reflexivity);
    unfold send_response; rewrite bind_assoc;
    rewrite (bind_ret _ _ _ _ _ (log_request_eq _ code)).
  all: match goal with
       | |- stdout (snd (?m ?s)) = _ =>
           assert (Hs : silent m)
       end.
  1, 3: repeat
    match goal with
    | |- silent (bind _ _) => apply silent_bind; [| intros ?]
    | |- silent (send_response_only _ _) => apply silent_send_response_only
    | |- silent (send_header _ _) => apply silent_send_header
    | |- silent end_headers => apply silent_end_headers
    | |- silent (wfile_write _) => apply silent_wfile_write
    | |- silent (ret _) => apply silent_ret
    | |- silent get => apply silent_get
    | |- silent (if ?b then _ else _) => destruct b
    | |- silent (match ?x with _ => _ end) => destruct x
    end.
  all: match goal with
       | |- stdout (snd (?m ?s)) = _ =>
           destruct (Hs s) as [Ho _]; rewrite Ho
       end.
  all: cbn [stdout set_stdout client_address requestline];
    rewrite <- app_assoc; cbn [app];
    unfold error_line, log_line, access_line, request_summary;
    cbn [stdout set_stdout client_address requestline];
    repeat rewrite append_nil_r; reflexivity.
Qed.

End ErrorLog.

Section Paths.
Context {RT : Runtime}.

Lemma before_first_cut (sep : ascii) (p rest : string) :
  before_first sep (p ++ String sep rest) = before_first sep p.
Proof.
  induction p as [| c p IH].
  - change (EmptyString ++ String sep rest) with (String sep rest).
    cbn [before_first]. rewrite Ascii.eqb_refl. reflexivity.
  - change (String c p ++ String sep rest)
      with (String c (p ++ String sep rest)).
    cbn [before_first].
    destruct (Ascii.eqb c sep); [reflexivity | rewrite IH; reflexivity].
Qed.

Lemma before_first_absent (sep : ascii) (p rest : string) :
  contains_char sep p = false ->
  before_first sep (p ++ rest) = p ++ before_first sep rest.
Proof.
  induction p as [| c p IH]; [reflexivity |].
  change (String c p ++ rest) with (String c (p ++ rest)).
  cbn [before_first contains_char].
  intros Hc. apply Bool.orb_false_elim in Hc. destruct Hc as [Hc Hp].
  rewrite Ascii.eqb_sym, Hc, (IH Hp). reflexivity.
Qed.

Lemma before_first_present (sep : ascii) (p rest : string) :
  contains_char sep p = true ->
  before_first sep (p ++ rest) = before_first sep p.
Proof.
  induction p as [| c p IH]; [discriminate |].
  change (String c p ++ rest) with (String c (p ++ rest)).
  cbn [before_first contains_char].
  intros Hc. rewrite (Ascii.eqb_sym c sep).
  destruct (Ascii.eqb sep c); [reflexivity |].
  cbn [orb] in Hc. rewrite (IH Hc). reflexivity.
Qed.

(** X11: the query and the fragment of a request path play no part in
    the choice of the file: a path followed by [?] or [#] and anything
    is translated to the same place as the path alone. *)
Theorem query_and_fragment_ignored (directory p rest : string) :
  translate_path directory (p ++ String "?" rest)
  = translate_path directory p
  /\ translate_path directory (p ++ String "#" rest)
     = translate_path directory p.
Proof.
  unfold translate_path. split.
  - rewrite before_first_cut. reflexivity.
  - destruct (contains_char "?" p) eqn:Hq.
    + rewrite (before_first_present "?" p _ Hq). reflexivity.
    + rewrite (before_first_absent "?" p _ Hq).
      cbn [before_first]. change (Ascii.eqb "#" "?") with false. cbn iota.
      rewrite before_first_cut.
      assert (Hp : before_first "?" p = p).
      { rewrite <- (append_nil_r p) at 1.
        rewrite (before_first_absent "?" p EmptyString Hq).
        apply append_nil_r. }
      rewrite Hp. reflexivity.
Qed.

End Paths.

End HandlerRuns.
